(** * read_pipelines.py: rendering an Azure Data Factory pipeline to Markdown

    A shallow embedding of [read_pipelines.py] and the properties of its
    rendering.  The parsed JSON document is a tree of Python objects; the
    functions of the module are embedded one for one, with Python's
    exceptions as an error result and the Markdown file as the text that has
    been appended to it so far. *)

From Stdlib Require Import String Ascii List ZArith Bool Lia.
From Stdlib Require Import Numbers.DecimalString.
Import ListNotations.
Open Scope list_scope.
Open Scope string_scope.

Set Warnings "-register-all".

(** ** Python objects *)

(** Where a [str] object comes from.  CPython's [is] compares addresses, and
    the module has one identity test, against its constant ['Expression'].
    [Literal] is the object the compiler made for a string constant of the
    module (one object per text: such constants are interned).  [Runtime] is
    a [str] made while the program runs, as every string value that
    [json.load] decodes is: an object of its own, which is not the object of
    that constant even when it has the same text. *)
Inductive origin : Type :=
| Literal
| Runtime.

(** The objects [json.load] builds, and the constants of the module.  A
    [float] is kept as the text of its [repr]; a [str] as the string of its
    code points (text within Latin-1); a [dict] as its items in insertion
    order, with distinct keys. *)
Inductive pyobj : Type :=
| PNone
| PBool (b : bool)
| PInt (z : Z)
| PFloat (repr : string)
| PStr (o : origin) (s : string)
| PList (l : list pyobj)
| PDict (d : list (string * pyobj)).

(** The exceptions the module can raise.  [KeyError] carries the missing
    key as text; [OSError] stands for the other errors of [open]
    ([PermissionError], [IsADirectoryError]). *)
Inductive exn : Type :=
| KeyError (key : string)
| TypeError
| IndexError
| AttributeError
| JSONDecodeError
| FileNotFoundError
| OSError.

Inductive result (A : Type) : Type :=
| Ok (a : A)
| Raise (e : exn).
Arguments Ok {A} a.
Arguments Raise {A} e.

Definition rbind {A B : Type} (r : result A) (k : A -> result B) : result B :=
  match r with
  | Ok a => k a
  | Raise e => Raise e
  end.

Declare Scope res_scope.
Delimit Scope res_scope with res.
Notation "x <- r ;; k" := (rbind r (fun x => k))
  (at level 61, r at next level, right associativity) : res_scope.

(** ** Characters and text *)

Definition nl : string := String (ascii_of_nat 10) EmptyString.
Definition char_nl : ascii := ascii_of_nat 10.
Definition char_tab : ascii := ascii_of_nat 9.
Definition char_cr : ascii := ascii_of_nat 13.
Definition char_backslash : ascii := ascii_of_nat 92.
Definition char_quote : ascii := ascii_of_nat 39.
Definition char_dquote : ascii := ascii_of_nat 34.

Fixpoint string_mem (c : ascii) (s : string) : bool :=
  match s with
  | EmptyString => false
  | String a s' => Ascii.eqb a c || string_mem c s'
  end.

(** [sub in s] on two [str] objects: [sub] occurs in [s] as a substring. *)
Fixpoint substring_in (sub s : string) : bool :=
  String.prefix sub s ||
  match s with
  | EmptyString => false
  | String _ s' => substring_in sub s'
  end.

(** [s.replace(a, b)] for one-character [a] and [b]. *)
Fixpoint replace (a b : ascii) (s : string) : string :=
  match s with
  | EmptyString => EmptyString
  | String c s' => String (if Ascii.eqb c a then b else c) (replace a b s')
  end.

Fixpoint join (sep : string) (l : list string) : string :=
  match l with
  | [] => ""
  | [x] => x
  | x :: l' => x ++ sep ++ join sep l'
  end.

(** ** [repr] and [str] of an object *)

Definition hex_digit (n : nat) : ascii :=
  match String.get n "0123456789abcdef" with
  | Some c => c
  | None => "0"%char
  end.

Definition hex_escape (c : ascii) : string :=
  let n := nat_of_ascii c in
  String char_backslash
    (String "x" (String (hex_digit (n / 16)) (String (hex_digit (n mod 16)) ""))).

(** One character of [repr] of a [str] within the quote [q]. *)
Definition repr_char (q c : ascii) : string :=
  let n := nat_of_ascii c in
  if Ascii.eqb c q || Ascii.eqb c char_backslash then String char_backslash (String c "")
  else if Ascii.eqb c char_tab then String char_backslash "t"
  else if Ascii.eqb c char_nl then String char_backslash "n"
  else if Ascii.eqb c char_cr then String char_backslash "r"
  else if (n <? 32)%nat || (n =? 127)%nat then hex_escape c
  else if (n <? 127)%nat then String c ""
  else if (n <=? 160)%nat || (n =? 173)%nat then hex_escape c
  else String c "".

Fixpoint repr_chars (q : ascii) (s : string) : string :=
  match s with
  | EmptyString => ""
  | String c s' => repr_char q c ++ repr_chars q s'
  end.

(** [repr] of a [str]: single quotes, unless the text has a single quote and
    no double quote. *)
Definition str_repr (s : string) : string :=
  let q := if string_mem char_quote s && negb (string_mem char_dquote s)
           then char_dquote else char_quote in
  String q (repr_chars q s ++ String q "").

Definition int_repr (z : Z) : string := NilZero.string_of_int (Z.to_int z).

Fixpoint py_repr (x : pyobj) : string :=
  match x with
  | PNone => "None"
  | PBool true => "True"
  | PBool false => "False"
  | PInt z => int_repr z
  | PFloat r => r
  | PStr _ s => str_repr s
  | PList l => "[" ++ join ", " (map py_repr l) ++ "]"
  | PDict d =>
      "{" ++ join ", " (map (fun kv => match kv with
                                        | (k, v) => str_repr k ++ ": " ++ py_repr v
                                        end) d) ++ "}"
  end.

(** [format(x, '')], which is what a [{0}] field of [str.format] and a [%s]
    of the [%] operator put in the text: the text of a [str], [str(x)]
    otherwise (and [str] is [repr] for the other objects). *)
Definition py_format (x : pyobj) : string :=
  match x with
  | PStr _ s => s
  | _ => py_repr x
  end.

(** ** String constants and templates *)

(** A string constant as the Python lexer reads it: backslash-n is the
    newline character (the only escape in the constants that are written). *)
Fixpoint lit (s : string) : string :=
  match s with
  | EmptyString => ""
  | String c t =>
      match t with
      | String d t' =>
          if Ascii.eqb c char_backslash && Ascii.eqb d "n"
          then String char_nl (lit t')
          else String c (lit t)
      | EmptyString => String c ""
      end
  end.

(** [template.format(args)] for the replacement fields [{0}] to [{9}]. *)
Fixpoint format (template : string) (args : list string) : string :=
  match template with
  | EmptyString => ""
  | String c t =>
      match t with
      | String i (String e t') =>
          if Ascii.eqb c "{" && Ascii.eqb e "}"
          then nth (nat_of_ascii i - 48) args "" ++ format t' args
          else String c (format t args)
      | _ => String c (format t args)
      end
  end.

(** [template % arg] for the conversion [%s] and an argument that is not a
    tuple. *)
Fixpoint percent (template : string) (arg : string) : string :=
  match template with
  | EmptyString => ""
  | String c t =>
      match t with
      | String d t' =>
          if Ascii.eqb c "%" && Ascii.eqb d "s"
          then arg ++ percent t' arg
          else String c (percent t arg)
      | EmptyString => String c ""
      end
  end.

(** ** Subscripts, membership, length and iteration *)

Fixpoint assoc {V : Type} (k : string) (d : list (string * V)) : option V :=
  match d with
  | [] => None
  | (k', v) :: d' => if String.eqb k' k then Some v else assoc k d'
  end.

(** [o[k]] for a [str] key [k]: only a [dict] takes such a subscript. *)
Definition getitem (o : pyobj) (k : string) : result pyobj :=
  match o with
  | PDict d =>
      match assoc k d with
      | Some v => Ok v
      | None => Raise (KeyError k)
      end
  | _ => Raise TypeError
  end.

(** [x == k] for a [str] [k]. *)
Definition eq_str (x : pyobj) (k : string) : bool :=
  match x with
  | PStr _ s => String.eqb s k
  | _ => false
  end.

(** [k in o] for a [str] [k]: a key of a [dict], an element of a [list], a
    substring of a [str]; the other objects are not containers. *)
Definition contains (o : pyobj) (k : string) : result bool :=
  match o with
  | PDict d => Ok (match assoc k d with Some _ => true | None => false end)
  | PList l => Ok (existsb (fun x => eq_str x k) l)
  | PStr _ s => Ok (substring_in k s)
  | _ => Raise TypeError
  end.

(** [len(o)]. *)
Definition len (o : pyobj) : result nat :=
  match o with
  | PDict d => Ok (List.length d)
  | PList l => Ok (List.length l)
  | PStr _ s => Ok (String.length s)
  | _ => Raise TypeError
  end.

Fixpoint chars (s : string) : list pyobj :=
  match s with
  | EmptyString => []
  | String c s' => PStr Runtime (String c "") :: chars s'
  end.

(** The items a [for] loop over [o] visits: the elements of a [list], the
    keys of a [dict], the characters of a [str]. *)
Definition iter (o : pyobj) : result (list pyobj) :=
  match o with
  | PList l => Ok l
  | PDict d => Ok (map (fun kv => PStr Runtime (fst kv)) d)
  | PStr _ s => Ok (chars s)
  | _ => Raise TypeError
  end.

(** [o[0]]. *)
Definition getitem0 (o : pyobj) : result pyobj :=
  match o with
  | PList (x :: _) => Ok x
  | PList [] => Raise IndexError
  | PStr _ (String c _) => Ok (PStr Runtime (String c ""))
  | PStr _ EmptyString => Raise IndexError
  | PDict _ => Raise (KeyError "0")
  | _ => Raise TypeError
  end.

(** [o.replace(' ', '-')]: only a [str] has the method. *)
Definition replace_spaces (o : pyobj) : result string :=
  match o with
  | PStr _ s => Ok (replace " " "-" s)
  | _ => Raise AttributeError
  end.

(** [x is 'text'], for a string constant of the module: [x] is the object
    of that constant. *)
Definition is_literal (x : pyobj) (text : string) : bool :=
  match x with
  | PStr Literal s => String.eqb s text
  | _ => false
  end.

(** ** The Markdown file *)

(** An action on the open Markdown file: from the text appended so far to
    the text afterwards, with the value or the exception.  What was written
    before an exception stays written. *)
Definition io (A : Type) : Type := string -> string * result A.

Definition ret {A : Type} (a : A) : io A := fun out => (out, Ok a).

Definition bind {A B : Type} (m : io A) (k : A -> io B) : io B :=
  fun out =>
    match m out with
    | (out', Ok a) => k a out'
    | (out', Raise e) => (out', Raise e)
    end.

Definition lift {A : Type} (r : result A) : io A := fun out => (out, r).

(** [pipelines_file.write(s)]. *)
Definition write (s : string) : io unit := fun out => (out ++ s, Ok tt).

Declare Scope io_scope.
Delimit Scope io_scope with io.
Notation "x <- m ;; k" := (bind m (fun x => k))
  (at level 61, m at next level, right associativity) : io_scope.
Notation "m ;; k" := (bind m (fun _ => k))
  (at level 61, right associativity) : io_scope.

(** [for x in l: body(x)]. *)
Fixpoint for_each {A : Type} (body : A -> io unit) (l : list A) : io unit :=
  match l with
  | [] => ret tt
  | x :: l' => (body x ;; for_each body l')%io
  end.

(** ** The Expression Resolver (lines 106-120) *)

(** [is_expression] returns [input['type'] is 'Expression'] when ['type' in
    input], and falls off its end (returning [None]) otherwise. *)
Definition is_expression (input : pyobj) : result (option bool) :=
  (has_type <- contains input "type" ;;
   if has_type : bool
   then marker <- getitem input "type" ;; Ok (Some (is_literal marker "Expression"))
   else Ok None)%res.

Definition get_expression_value (expr : pyobj) : result pyobj :=
  getitem expr "value".

(** Truth value of what [is_expression] returns. *)
Definition truthy (r : option bool) : bool :=
  match r with
  | Some b => b
  | None => false
  end.

Definition get_value (input : pyobj) : result pyobj :=
  (c <- is_expression input ;;
   if truthy c then get_expression_value input else Ok input)%res.

(** ** The query sub-step (lines 84-103) *)

Definition supported_types : list (string * list (string * string)) :=
  [ ("SqlServerSource", [ ("query_field_name", "sqlReaderQuery") ]);
    ("OracleSource", [ ("query_field_name", "oracleReaderQuery") ]) ].

(** [source_type in supported_types]: the key is hashed first, and a [list]
    or a [dict] cannot be. *)
Definition in_supported_types (source_type : pyobj) : result bool :=
  match source_type with
  | PList _ | PDict _ => Raise TypeError
  | PStr _ s => Ok (match assoc s supported_types with Some _ => true | None => false end)
  | _ => Ok false
  end.

(** [supported_types[source_type]['query_field_name']]. *)
Definition query_field_name_of (source_type : pyobj) : result string :=
  match source_type with
  | PList _ | PDict _ => Raise TypeError
  | PStr _ s =>
      match assoc s supported_types with
      | Some entry =>
          match assoc "query_field_name" entry with
          | Some f => Ok f
          | None => Raise (KeyError "query_field_name")
          end
      | None => Raise (KeyError s)
      end
  | _ => Raise (KeyError (py_repr source_type))
  end.

Definition read_query (act : pyobj) : io unit :=
  (typeProperties <- lift (getitem act "typeProperties") ;;
   has_source <- lift (contains typeProperties "source") ;;
   if has_source : bool then
     typeProperties <- lift (getitem act "typeProperties") ;;
     source <- lift (getitem typeProperties "source") ;;
     source_type <- lift (getitem source "type") ;;
     supported <- lift (in_supported_types source_type) ;;
     if supported : bool then
       query_field_name <- lift (query_field_name_of source_type) ;;
       typeProperties <- lift (getitem act "typeProperties") ;;
       source <- lift (getitem typeProperties "source") ;;
       field <- lift (getitem source query_field_name) ;;
       query <- lift (get_value field) ;;
       write (lit "\n<details>\n") ;;
       write (lit "\n<summary>Query</summary>\n") ;;
       write (format (lit "\n``` sql\n{0}\n```\n") [py_format query]) ;;
       write (lit "\n</details>\n")
     else ret tt
   else ret tt)%io.

(** ** The description and dependency sub-steps (lines 66-81) *)

Definition read_activity_description (act : pyobj) : io unit :=
  (has_description <- lift (contains act "description") ;;
   if has_description : bool then
     description <- lift (getitem act "description") ;;
     write (format (lit "Description: {0}\n") [py_format description])
   else ret tt)%io.

Definition read_activity_dependencies (act : pyobj) : io unit :=
  (dependsOn <- lift (getitem act "dependsOn") ;;
   n <- lift (len dependsOn) ;;
   if (0 <? n)%nat then
     write (lit "\n   Dependencies:") ;;
     dependsOn <- lift (getitem act "dependsOn") ;;
     deps <- lift (iter dependsOn) ;;
     for_each (fun dep =>
       activity <- lift (getitem dep "activity") ;;
       activity' <- lift (getitem dep "activity") ;;
       anchor <- lift (replace_spaces activity') ;;
       conditions <- lift (getitem dep "dependencyConditions") ;;
       condition <- lift (getitem0 conditions) ;;
       write (format (lit "\n   * [{0}]({1}) ({2}) \n")
                     [py_format activity; "#" ++ anchor; py_format condition])) deps
   else ret tt)%io.

(** ** The Activity Writer (lines 58-63) *)

Definition read_activity (act : pyobj) : io unit :=
  (name <- lift (getitem act "name") ;;
   type <- lift (getitem act "type") ;;
   write (format (lit "\n * Name: __{0}__, Type: {1}  \n") [py_format name; py_format type]) ;;
   read_activity_description act ;;
   read_query act ;;
   read_activity_dependencies act)%io.

(** ** The pipeline (lines 45-55) *)

(** The body of the [with] block after [json.load]: the header, then the
    activities in the order of the document. *)
Definition write_pipeline (pipelines_data : pyobj) : io unit :=
  (name <- lift (getitem pipelines_data "name") ;;
   write (percent (lit "\n\n ## %s \n") (py_format name)) ;;
   properties <- lift (getitem pipelines_data "properties") ;;
   has_description <- lift (contains properties "description") ;;
   (if has_description : bool then
      properties <- lift (getitem pipelines_data "properties") ;;
      description <- lift (getitem properties "description") ;;
      write (format (lit "\n Description: {0} \n") [py_format description])
    else ret tt) ;;
   write (lit "\n\n ### Steps \n") ;;
   properties <- lift (getitem pipelines_data "properties") ;;
   activities <- lift (getitem properties "activities") ;;
   acts <- lift (iter activities) ;;
   for_each read_activity acts)%io.

(** The files by name; [None] where there is no file. *)
Definition filesystem : Type := string -> option string.

(** The files once [name] has been opened for append: the file is created
    empty when it was missing. *)
Definition created (name : string) (fs : filesystem) : filesystem :=
  fun p =>
    if String.eqb p name
    then Some (match fs name with Some text => text | None => "" end)
    else fs p.

Definition set_file (name text : string) (fs : filesystem) : filesystem :=
  fun p => if String.eqb p name then Some text else fs p.

Definition content (name : string) (fs : filesystem) : string :=
  match fs name with
  | Some text => text
  | None => ""
  end.

Section Loader.

(** [json.load] on the text of a file: the document, or the decoder's
    exception.  The decoder is the library's, not the module's. *)
Variable json_load : string -> result pyobj.

(** The exception of [open(name, 'a')] for a name that cannot be opened for
    append (its directory is missing, it names a directory, access is
    denied), and [None] for a name that can.  It is the operating system's
    answer, not the module's. *)
Variable append_error : string -> option exn.

(** [open(name, 'a')]: it raises and creates nothing for a name that cannot
    be opened; otherwise the file exists afterwards. *)
Definition open_append (name : string) (fs : filesystem) : result filesystem :=
  match append_error name with
  | Some e => Raise e
  | None => Ok (created name fs)
  end.

(** The Markdown file is opened for append before the pipeline file is
    read; a write goes to the end of its text, and [close] ends a call that
    does not raise.  The call of [logging.info] touches no file and is left
    out. *)
Definition read_pipeline (pipeline_file_name markdown_file_name : string)
    (fs : filesystem) : filesystem * result unit :=
  match open_append markdown_file_name fs with
  | Raise e => (fs, Raise e)
  | Ok fs =>
      match fs pipeline_file_name with
      | None => (fs, Raise FileNotFoundError)
      | Some text =>
          match json_load text with
          | Raise e => (fs, Raise e)
          | Ok pipelines_data =>
              match write_pipeline pipelines_data (content markdown_file_name fs) with
              | (out, r) => (set_file markdown_file_name out fs, r)
              end
          end
      end
  end.

End Loader.

(** A loader that knows the documents of a finite table and rejects every
    other text; it stands for [json.load] in the examples. *)
Definition loader_of (known : list (string * pyobj)) : string -> result pyobj :=
  fun text =>
    match assoc text known with
    | Some doc => Ok doc
    | None => Raise JSONDecodeError
    end.

(** ** The document as the specification describes it *)

(** The field [k] of an object, when [o] is an object that has it. *)
Definition field (o : pyobj) (k : string) : option pyobj :=
  match o with
  | PDict d => assoc k d
  | _ => None
  end.

(** [typeProperties.source] of an activity, when that path exists. *)
Definition source_of (act : pyobj) : option pyobj :=
  match field act "typeProperties" with
  | Some typeProperties => field typeProperties "source"
  | None => None
  end.

(** The mapping table of the specification: source type tag, query field. *)
Definition query_fields : list (string * string) :=
  [ ("SqlServerSource", "sqlReaderQuery"); ("OracleSource", "oracleReaderQuery") ].

(** ** The rendered text as the specification describes it *)

Fixpoint texts (l : list string) : string :=
  match l with
  | [] => ""
  | x :: l' => x ++ texts l'
  end.

Definition optional (f : string -> string) (x : option string) : string :=
  match x with
  | Some s => f s
  | None => ""
  end.

(** The object [dep] is a dependency on the activity [name] whose first
    condition is [condition]. *)
Inductive dependency_of : pyobj -> string -> string -> Prop :=
| dependency_intro d o name o' condition more :
    assoc "activity" d = Some (PStr o name) ->
    assoc "dependencyConditions" d = Some (PList (PStr o' condition :: more)) ->
    dependency_of (PDict d) name condition.

Definition dependencies_of (deps : list pyobj) (views : list (string * string)) : Prop :=
  Forall2 (fun dep v => dependency_of dep (fst v) (snd v)) deps views.

(** The link line of a dependency: the name, the anchor of the name with
    hyphens for spaces, the condition. *)
Definition dependency_line (name condition : string) : string :=
  nl ++ "   * [" ++ name ++ "](#" ++ replace " " "-" name ++ ") (" ++ condition ++ ") " ++ nl.

Definition dependency_lines (views : list (string * string)) : string :=
  texts (map (fun v => dependency_line (fst v) (snd v)) views).

Definition dependencies_text (views : list (string * string)) : string :=
  match views with
  | [] => ""
  | _ => nl ++ "   Dependencies:" ++ dependency_lines views
  end.

Definition activity_description_text (description : string) : string :=
  "Description: " ++ description ++ nl.

Definition query_block (query : string) : string :=
  nl ++ "<details>" ++ nl
  ++ nl ++ "<summary>Query</summary>" ++ nl
  ++ nl ++ "``` sql" ++ nl ++ query ++ nl ++ "```" ++ nl
  ++ nl ++ "</details>" ++ nl.

Definition bullet (name type : string) : string :=
  nl ++ " * Name: __" ++ name ++ "__, Type: " ++ type ++ "  " ++ nl.

Definition pipeline_description_text (description : string) : string :=
  nl ++ " Description: " ++ description ++ " " ++ nl.

Definition header_text (name : string) (description : option string) : string :=
  nl ++ nl ++ " ## " ++ name ++ " " ++ nl
  ++ optional pipeline_description_text description
  ++ nl ++ nl ++ " ### Steps " ++ nl.

(** What is rendered of an activity: name, type, description if any, the
    text of the query block if there is one, and for each dependency the
    upstream name and the first condition. *)
Record activity_view : Type := {
  a_name : string;
  a_type : string;
  a_description : option string;
  a_query : option string;
  a_dependencies : list (string * string)
}.

Record pipeline_view : Type := {
  p_name : string;
  p_description : option string;
  p_activities : list activity_view
}.

Definition activity_text (a : activity_view) : string :=
  bullet (a_name a) (a_type a)
  ++ optional activity_description_text (a_description a)
  ++ optional query_block (a_query a)
  ++ dependencies_text (a_dependencies a).

Definition pipeline_text (p : pipeline_view) : string :=
  header_text (p_name p) (p_description p) ++ texts (map activity_text (p_activities p)).

(** The optional string field [description] of an object. *)
Inductive description_of (d : list (string * pyobj)) : option string -> Prop :=
| description_absent :
    assoc "description" d = None -> description_of d None
| description_present o s :
    assoc "description" d = Some (PStr o s) -> description_of d (Some s).

(** The query of a [typeProperties] object: none without a [source] or for
    a source type outside the table; for a type of the table, the text of
    what the Expression Resolver returns for the mapped field, when the
    field is there and the resolver returns. *)
Inductive query_of (typeProperties : list (string * pyobj)) : option string -> Prop :=
| query_no_source :
    assoc "source" typeProperties = None -> query_of typeProperties None
| query_unsupported source o tag :
    assoc "source" typeProperties = Some (PDict source) ->
    assoc "type" source = Some (PStr o tag) ->
    tag <> "SqlServerSource" -> tag <> "OracleSource" ->
    query_of typeProperties None
| query_resolved source o tag query_field value resolved :
    assoc "source" typeProperties = Some (PDict source) ->
    assoc "type" source = Some (PStr o tag) ->
    In (tag, query_field) query_fields ->
    assoc query_field source = Some value ->
    get_value value = Ok resolved ->
    query_of typeProperties (Some (py_format resolved)).

Inductive activity_of : pyobj -> activity_view -> Prop :=
| activity_intro d o name o' type description typeProperties query deps views :
    assoc "name" d = Some (PStr o name) ->
    assoc "type" d = Some (PStr o' type) ->
    description_of d description ->
    assoc "typeProperties" d = Some (PDict typeProperties) ->
    query_of typeProperties query ->
    assoc "dependsOn" d = Some (PList deps) ->
    dependencies_of deps views ->
    activity_of (PDict d)
      {| a_name := name; a_type := type; a_description := description;
         a_query := query; a_dependencies := views |}.

Inductive pipeline_of : pyobj -> pipeline_view -> Prop :=
| pipeline_intro d o name properties description acts views :
    assoc "name" d = Some (PStr o name) ->
    assoc "properties" d = Some (PDict properties) ->
    description_of properties description ->
    assoc "activities" properties = Some (PList acts) ->
    Forall2 activity_of acts views ->
    pipeline_of (PDict d)
      {| p_name := name; p_description := description; p_activities := views |}.

(** The query sub-step cannot find a key it subscripts with: the activity
    has no [typeProperties], or its source type is in the table and the
    source has no field of the mapped name. *)
Inductive query_lookup_fails : pyobj -> string -> Prop :=
| lacks_typeProperties d :
    assoc "typeProperties" d = None ->
    query_lookup_fails (PDict d) "typeProperties"
| lacks_query_field d typeProperties source o tag query_field :
    assoc "typeProperties" d = Some (PDict typeProperties) ->
    assoc "source" typeProperties = Some (PDict source) ->
    assoc "type" source = Some (PStr o tag) ->
    In (tag, query_field) query_fields ->
    assoc query_field source = None ->
    query_lookup_fails (PDict d) query_field.

(** The query of a [typeProperties] object, read off the document alone:
    none without a [source] or for a source type outside the table; for a
    type of the table, the mapped field when it is a plain string without
    the substring type. *)
Inductive plain_query_of (typeProperties : list (string * pyobj)) : option string -> Prop :=
| plain_no_source :
    assoc "source" typeProperties = None -> plain_query_of typeProperties None
| plain_unsupported source o tag :
    assoc "source" typeProperties = Some (PDict source) ->
    assoc "type" source = Some (PStr o tag) ->
    tag <> "SqlServerSource" -> tag <> "OracleSource" ->
    plain_query_of typeProperties None
| plain_string_query source o tag query_field o' query :
    assoc "source" typeProperties = Some (PDict source) ->
    assoc "type" source = Some (PStr o tag) ->
    In (tag, query_field) query_fields ->
    assoc query_field source = Some (PStr o' query) ->
    substring_in "type" query = false ->
    plain_query_of typeProperties (Some query).

Inductive plain_activity_of : pyobj -> activity_view -> Prop :=
| plain_activity_intro d o name o' type description typeProperties query deps views :
    assoc "name" d = Some (PStr o name) ->
    assoc "type" d = Some (PStr o' type) ->
    description_of d description ->
    assoc "typeProperties" d = Some (PDict typeProperties) ->
    plain_query_of typeProperties query ->
    assoc "dependsOn" d = Some (PList deps) ->
    dependencies_of deps views ->
    plain_activity_of (PDict d)
      {| a_name := name; a_type := type; a_description := description;
         a_query := query; a_dependencies := views |}.

Inductive plain_pipeline_of : pyobj -> pipeline_view -> Prop :=
| plain_pipeline_intro d o name properties description acts views :
    assoc "name" d = Some (PStr o name) ->
    assoc "properties" d = Some (PDict properties) ->
    description_of properties description ->
    assoc "activities" properties = Some (PList acts) ->
    Forall2 plain_activity_of acts views ->
    plain_pipeline_of (PDict d)
      {| p_name := name; p_description := description; p_activities := views |}.

(** ** The data model of the specification *)

Definition is_string (x : option pyobj) : bool :=
  match x with
  | Some (PStr _ _) => true
  | _ => false
  end.

Definition is_optional_string (x : option pyobj) : bool :=
  match x with
  | None | Some (PStr _ _) => true
  | _ => false
  end.

(** Dependency: [activity] a string, [dependencyConditions] a non-empty
    sequence of strings. *)
Definition spec_dependency (dep : pyobj) : bool :=
  is_string (field dep "activity") &&
  match field dep "dependencyConditions" with
  | Some (PList (c :: more)) => forallb (fun x => is_string (Some x)) (c :: more)
  | _ => false
  end.

(** SourceDescriptor: an object with a string [type]. *)
Definition spec_source (source : pyobj) : bool :=
  is_string (field source "type").

(** Activity: [name] and [type] required strings, [description] an optional
    string, [typeProperties.source] an optional source descriptor,
    [dependsOn] a required sequence of dependencies. *)
Definition spec_activity (act : pyobj) : bool :=
  is_string (field act "name") &&
  is_string (field act "type") &&
  is_optional_string (field act "description") &&
  match source_of act with
  | None => true
  | Some source => spec_source source
  end &&
  match field act "dependsOn" with
  | Some (PList deps) => forallb spec_dependency deps
  | _ => false
  end.

(** PipelineDocument: [name] a required string, [properties.description] an
    optional string, [properties.activities] a required sequence of
    activities. *)
Definition spec_document (doc : pyobj) : bool :=
  is_string (field doc "name") &&
  match field doc "properties" with
  | Some properties =>
      is_optional_string (field properties "description") &&
      match field properties "activities" with
      | Some (PList acts) => forallb spec_activity acts
      | _ => false
      end
  | None => false
  end.

(** ** Sample activities and pipelines *)

(** An activity without [typeProperties]. *)
Definition wait_activity : pyobj :=
  PDict [ ("name", PStr Runtime "Wait 1");
          ("type", PStr Runtime "Wait");
          ("dependsOn", PList []) ].

(** An activity whose source type is not in the table, with a query-like
    field all the same. *)
Definition blob_activity : pyobj :=
  PDict [ ("name", PStr Runtime "Copy Blob");
          ("type", PStr Runtime "Copy");
          ("typeProperties", PDict [ ("source", PDict [
             ("type", PStr Runtime "BlobSource");
             ("sqlReaderQuery", PStr Runtime "SELECT 1") ]) ]);
          ("dependsOn", PList []) ].

(** An activity with a recognised source type and no query field. *)
Definition table_activity : pyobj :=
  PDict [ ("name", PStr Runtime "Copy Table");
          ("type", PStr Runtime "Copy");
          ("typeProperties", PDict [ ("source", PDict [
             ("type", PStr Runtime "OracleSource") ]) ]);
          ("dependsOn", PList []) ].

(** The two dependencies of the example of the specification. *)
Definition two_dependencies : pyobj :=
  PDict [ ("name", PStr Runtime "C");
          ("dependsOn", PList [
             PDict [ ("activity", PStr Runtime "A");
                     ("dependencyConditions",
                      PList [PStr Runtime "Succeeded"; PStr Runtime "Completed"]) ];
             PDict [ ("activity", PStr Runtime "B 2");
                     ("dependencyConditions", PList [PStr Runtime "Failed"]) ] ]) ].

(** A pipeline with a description and no activity. *)
Definition empty_pipeline : pyobj :=
  PDict [ ("name", PStr Runtime "Nightly");
          ("properties", PDict [ ("description", PStr Runtime "");
                                 ("activities", PList []) ]) ].

(** A pipeline whose second activity has a recognised source without its
    query field. *)
Definition broken_pipeline : pyobj :=
  PDict [ ("name", PStr Runtime "Broken");
          ("properties", PDict [ ("activities",
             PList [ blob_activity; table_activity; blob_activity ]) ]) ].

(** The pipeline of the end-to-end example of the specification: one
    activity with a description, no source and no dependency. *)
Definition load_sales : pyobj :=
  PDict [ ("name", PStr Runtime "Load Sales");
          ("properties", PDict [ ("activities", PList [
             PDict [ ("name", PStr Runtime "Copy Data");
                     ("type", PStr Runtime "Copy");
                     ("description", PStr Runtime "copies rows");
                     ("typeProperties", PDict []);
                     ("dependsOn", PList []) ] ]) ]) ].

Definition load_sales_view : pipeline_view :=
  {| p_name := "Load Sales";
     p_description := None;
     p_activities :=
       [ {| a_name := "Copy Data"; a_type := "Copy";
            a_description := Some "copies rows";
            a_query := None; a_dependencies := [] |} ] |}.

(** A pipeline of two activities that follows the data model of the
    specification; neither activity has [typeProperties].  Its view is what
    the specification has rendered of it. *)
Definition two_waits_pipeline : pyobj :=
  PDict [ ("name", PStr Runtime "Pause");
          ("properties", PDict [ ("activities", PList [
             PDict [ ("name", PStr Runtime "Wait 1");
                     ("type", PStr Runtime "Wait");
                     ("dependsOn", PList []) ];
             PDict [ ("name", PStr Runtime "Wait 2");
                     ("type", PStr Runtime "Wait");
                     ("dependsOn", PList []) ] ]) ]) ].

Definition two_waits_view : pipeline_view :=
  {| p_name := "Pause";
     p_description := None;
     p_activities :=
       [ {| a_name := "Wait 1"; a_type := "Wait"; a_description := None;
            a_query := None; a_dependencies := [] |};
         {| a_name := "Wait 2"; a_type := "Wait"; a_description := None;
            a_query := None; a_dependencies := [] |} ] |}.

(** A pipeline with a query that mentions a column named type. *)
Definition typed_query_pipeline : pyobj :=
  PDict [ ("name", PStr Runtime "Typed");
          ("properties", PDict [ ("activities", PList [
             PDict [ ("name", PStr Runtime "Copy Types");
                     ("type", PStr Runtime "Copy");
                     ("typeProperties", PDict [ ("source", PDict [
                        ("type", PStr Runtime "SqlServerSource");
                        ("sqlReaderQuery", PStr Runtime "SELECT type FROM t") ]) ]);
                     ("dependsOn", PList []) ] ]) ]) ].

(** ** The text a rendering appends *)

(** The action [m] only appends, and what it appends and returns does not
    depend on the text that is already in the file. *)
Definition framed {A : Type} (m : io A) : Prop :=
  forall out, m out = (out ++ fst (m ""), snd (m "")).

(** What the rendering of a document appends to the file, and how it ends. *)
Definition rendered (doc : pyobj) : string := fst (write_pipeline doc "").
Definition outcome (doc : pyobj) : result unit := snd (write_pipeline doc "").

(** ** Sample files *)

Definition quoted (s : string) : string :=
  String char_dquote (s ++ String char_dquote "").

Definition load_sales_json : string :=
  "{" ++ quoted "name" ++ ": " ++ quoted "Load Sales" ++ ", "
  ++ quoted "properties" ++ ": {" ++ quoted "activities" ++ ": [{"
  ++ quoted "name" ++ ": " ++ quoted "Copy Data" ++ ", "
  ++ quoted "type" ++ ": " ++ quoted "Copy" ++ ", "
  ++ quoted "description" ++ ": " ++ quoted "copies rows" ++ ", "
  ++ quoted "typeProperties" ++ ": {}, "
  ++ quoted "dependsOn" ++ ": []}]}}".

(** A loader that decodes the Load Sales document. *)
Definition sample_load : string -> result pyobj :=
  loader_of [ (load_sales_json, load_sales) ].

(** Every name can be opened for append but those under the directory
    [nodir], which does not exist. *)
Definition sample_append_error : string -> option exn :=
  fun p => if String.prefix "nodir/" p then Some FileNotFoundError else None.

(** A factory with the Load Sales pipeline, a truncated pipeline file and a
    Markdown file that has a title. *)
Definition sample_files : filesystem :=
  fun p =>
    if String.eqb p "pipeline/load_sales.json" then Some load_sales_json
    else if String.eqb p "pipeline/truncated.json" then Some "{ name: "
    else if String.eqb p "factory.md" then Some "# Pipelines"
    else None.

(** ** Documents as [json.load] builds them *)

(** Every [str] of the object was made at run time. *)
Fixpoint loaded (x : pyobj) : bool :=
  match x with
  | PStr Literal _ => false
  | PList l => forallb loaded l
  | PDict d => forallb (fun kv => match kv with (_, v) => loaded v end) d
  | _ => true
  end.

(** ** Dependencies the dependency sub-step stops at *)

(** The object [dep] makes the body of the loop raise [e]: it is not an
    object, or has no [activity], or an [activity] that is not a string, or
    no [dependencyConditions], or an empty list of them. *)
Inductive dependency_error : pyobj -> exn -> Prop :=
| dependency_no_activity d :
    assoc "activity" d = None ->
    dependency_error (PDict d) (KeyError "activity")
| dependency_activity_not_str d x :
    assoc "activity" d = Some x ->
    replace_spaces x = Raise AttributeError ->
    dependency_error (PDict d) AttributeError
| dependency_no_conditions d o name :
    assoc "activity" d = Some (PStr o name) ->
    assoc "dependencyConditions" d = None ->
    dependency_error (PDict d) (KeyError "dependencyConditions")
| dependency_empty_conditions d o name :
    assoc "activity" d = Some (PStr o name) ->
    assoc "dependencyConditions" d = Some (PList []) ->
    dependency_error (PDict d) IndexError.

(** An activity whose second dependency has no condition. *)
Definition unconditional_activity : pyobj :=
  PDict [ ("name", PStr Runtime "D");
          ("dependsOn", PList [
             PDict [ ("activity", PStr Runtime "A");
                     ("dependencyConditions", PList [PStr Runtime "Succeeded"]) ];
             PDict [ ("activity", PStr Runtime "B");
                     ("dependencyConditions", PList []) ];
             PDict [ ("activity", PStr Runtime "C");
                     ("dependencyConditions", PList [PStr Runtime "Failed"]) ] ]) ].

(** An activity with a SQL Server query, and one whose query names a column
    type. *)
Definition sql_activity (query : string) : pyobj :=
  PDict [ ("name", PStr Runtime "Copy Rows");
          ("type", PStr Runtime "Copy");
          ("typeProperties", PDict [ ("source", PDict [
             ("type", PStr Runtime "SqlServerSource");
             ("sqlReaderQuery", PStr Runtime query) ]) ]);
          ("dependsOn", PList []) ].

(** An activity whose source has a number for its type. *)
Definition numbered_source_activity : pyobj :=
  PDict [ ("typeProperties", PDict [ ("source", PDict [ ("type", PInt 7) ]) ]) ].

Definition blob_activity_view : activity_view :=
  {| a_name := "Copy Blob"; a_type := "Copy"; a_description := None;
     a_query := None; a_dependencies := [] |}.

(** An activity without a type, and a pipeline without activities. *)
Definition untyped_activity : pyobj :=
  PDict [ ("name", PStr Runtime "Nameless type"); ("dependsOn", PList []) ].

Definition headless_pipeline : pyobj :=
  PDict [ ("name", PStr Runtime "Empty");
          ("properties", PDict [ ("description", PStr Runtime "nothing yet") ]) ].

(** * Properties *)

(** ** Text and the file actions *)

Lemma append_assoc (a b c : string) : (a ++ b) ++ c = a ++ (b ++ c).
Proof.
  induction a as [|x a IH]; simpl; [reflexivity|].
  now rewrite IH.
Qed.

Lemma append_nil_r (a : string) : a ++ "" = a.
Proof.
  induction a as [|x a IH]; simpl; [reflexivity|].
  now rewrite IH.
Qed.

Lemma bind_lift_ok {A B : Type} (a : A) (k : A -> io B) (out : string) :
  bind (lift (Ok a)) k out = k a out.
Proof. reflexivity. Qed.

Lemma bind_lift_raise {A B : Type} (e : exn) (k : A -> io B) (out : string) :
  bind (lift (Raise e)) k out = (out, Raise e).
Proof. reflexivity. Qed.

Lemma bind_write {B : Type} (s : string) (k : unit -> io B) (out : string) :
  bind (write s) k out = k tt (out ++ s).
Proof. reflexivity. Qed.

Lemma bind_assoc {A B C : Type} (m : io A) (k : A -> io B) (k' : B -> io C)
    (out : string) :
  bind (bind m k) k' out = bind m (fun a => bind (k a) k') out.
Proof.
  unfold bind. destruct (m out) as [out' [a|e]]; reflexivity.
Qed.

Lemma bind_ret {A B : Type} (a : A) (k : A -> io B) (out : string) :
  bind (ret a) k out = k a out.
Proof. reflexivity. Qed.

(** Normalises the text of a file: appends are nested to the right and the
    constant templates are expanded. *)
Ltac text_norm :=
  cbn; repeat (rewrite !append_assoc; cbn); rewrite ?append_nil_r.

Lemma getitem_field (o : pyobj) (k : string) (v : pyobj) :
  field o k = Some v -> getitem o k = Ok v.
Proof.
  destruct o; simpl; try discriminate.
  now intros ->.
Qed.

Lemma getitem_missing (d : list (string * pyobj)) (k : string) :
  assoc k d = None -> getitem (PDict d) k = Raise (KeyError k).
Proof. simpl. now intros ->. Qed.

Lemma contains_present (d : list (string * pyobj)) (k : string) (v : pyobj) :
  assoc k d = Some v -> contains (PDict d) k = Ok true.
Proof. simpl. now intros ->. Qed.

Lemma contains_absent (d : list (string * pyobj)) (k : string) :
  assoc k d = None -> contains (PDict d) k = Ok false.
Proof. simpl. now intros ->. Qed.

(** Runs the file action of the goal as far as its results are known. *)
Ltac run :=
  repeat (first [ rewrite bind_assoc | rewrite bind_lift_ok | rewrite bind_lift_raise
                | rewrite bind_write | rewrite bind_ret ];
          cbv beta).

(** ** The Expression Resolver *)

(** C1: the resolver does not unwrap an Expression object that [json.load]
    has built.  The marker of such an object is a [str] of its own with the
    text Expression; [is_expression] asks whether it is the object of the
    constant, which it is not, so [get_value] returns the whole object
    instead of its [value]. *)
Theorem get_value_loaded_expression (v : pyobj) :
  get_value (PDict [("type", PStr Runtime "Expression"); ("value", v)])
  = Ok (PDict [("type", PStr Runtime "Expression"); ("value", v)]).
Proof. reflexivity. Qed.

(** The same object with the constant itself as its marker is unwrapped. *)
Lemma get_value_literal_expression (v : pyobj) :
  get_value (PDict [("type", PStr Literal "Expression"); ("value", v)]) = Ok v.
Proof. reflexivity. Qed.

(** What [get_value] does on any object: it is decided by the identity of
    the marker, and a marker equal in text only leaves the object as it is. *)
Lemma get_value_dict (d : list (string * pyobj)) :
  get_value (PDict d) =
  match assoc "type" d with
  | Some marker =>
      if is_literal marker "Expression"
      then match assoc "value" d with
           | Some v => Ok v
           | None => Raise (KeyError "value")
           end
      else Ok (PDict d)
  | None => Ok (PDict d)
  end.
Proof.
  unfold get_value, is_expression, get_expression_value; simpl.
  destruct (assoc "type" d) as [marker|]; simpl; [|reflexivity].
  destruct (is_literal marker "Expression"); reflexivity.
Qed.

(** The query block of a loaded Expression holds the [repr] of the object,
    not the query. *)
Example read_query_loaded_expression :
  read_query
    (PDict [("typeProperties", PDict [("source", PDict [
       ("type", PStr Runtime "SqlServerSource");
       ("sqlReaderQuery",
        PDict [("type", PStr Runtime "Expression"); ("value", PStr Runtime "SELECT 1")])])])])
    ""
  = (nl ++ "<details>" ++ nl ++ nl ++ "<summary>Query</summary>" ++ nl
     ++ nl ++ "``` sql" ++ nl ++ "{'type': 'Expression', 'value': 'SELECT 1'}" ++ nl
     ++ "```" ++ nl ++ nl ++ "</details>" ++ nl, Ok tt).
Proof. reflexivity. Qed.

Lemma plain_string_get_value (o : origin) (s : string) :
  get_value (PStr o s) =
  if substring_in "type" s then Raise TypeError else Ok (PStr o s).
Proof.
  unfold get_value, is_expression; simpl.
  destruct (substring_in "type" s); reflexivity.
Qed.

(** C2: on a plain string the resolver raises [TypeError] when the text has
    the substring type (['type' in input] is then true and [input['type']]
    subscripts a [str] with a [str]), and returns the string unchanged
    otherwise. *)
Theorem get_value_plain_string (o : origin) (s : string) :
  get_value (PStr o s) =
  if substring_in "type" s then Raise TypeError else Ok (PStr o s).
Proof.
  destruct (substring_in "type" s) eqn:E;
    rewrite plain_string_get_value, E; reflexivity.
Qed.

Example get_value_query_with_type :
  get_value (PStr Runtime "SELECT type FROM t") = Raise TypeError.
Proof. reflexivity. Qed.

Example get_value_query_select_1 :
  get_value (PStr Runtime "SELECT 1") = Ok (PStr Runtime "SELECT 1").
Proof. reflexivity. Qed.

(** Where the resolver returns on a plain string, a second resolution
    returns the same string. *)
Lemma plain_string_resolved_again (o : origin) (s : string) (r : pyobj) :
  get_value (PStr o s) = Ok r -> get_value r = Ok r.
Proof.
  rewrite plain_string_get_value.
  destruct (substring_in "type" s) eqn:E; [discriminate|].
  intros H; inversion H; subst.
  rewrite plain_string_get_value. now rewrite E.
Qed.

(** ** The query sub-step *)

Lemma assoc_supported_types (s : string) :
  s <> "SqlServerSource" -> s <> "OracleSource" -> assoc s supported_types = None.
Proof.
  intros H1 H2; unfold supported_types; cbn [assoc].
  destruct (String.eqb_spec "SqlServerSource" s) as [E|_]; [now subst|].
  destruct (String.eqb_spec "OracleSource" s) as [E|_]; [now subst|].
  reflexivity.
Qed.

Lemma read_query_skips (act : pyobj) (typeProperties : list (string * pyobj))
    (out : string) :
  field act "typeProperties" = Some (PDict typeProperties) ->
  (assoc "source" typeProperties = None \/
   exists source o tag,
     assoc "source" typeProperties = Some (PDict source) /\
     assoc "type" source = Some (PStr o tag) /\
     tag <> "SqlServerSource" /\ tag <> "OracleSource") ->
  read_query act out = (out, Ok tt).
Proof.
  intros Htp Hsrc.
  unfold read_query.
  rewrite (getitem_field _ _ _ Htp); run.
  destruct Hsrc as [Hnone|(source & o & tag & Hs & Ht & N1 & N2)].
  - rewrite (contains_absent _ _ Hnone); run. reflexivity.
  - rewrite (contains_present _ _ _ Hs); run.
    rewrite (getitem_field (PDict typeProperties) "source" _ Hs); run.
    rewrite (getitem_field (PDict source) "type" _ Ht); run.
    unfold in_supported_types.
    rewrite (assoc_supported_types tag N1 N2); run.
    reflexivity.
Qed.

(** ** The description sub-step *)

Lemma read_activity_description_dict (d : list (string * pyobj)) (out : string) :
  read_activity_description (PDict d) out =
  (out ++ match assoc "description" d with
          | Some x => activity_description_text (py_format x)
          | None => ""
          end, Ok tt).
Proof.
  unfold read_activity_description.
  destruct (assoc "description" d) as [x|] eqn:E.
  - rewrite (contains_present _ _ _ E); run.
    rewrite (getitem_field (PDict d) "description" _ E); run.
    reflexivity.
  - rewrite (contains_absent _ _ E); run.
    unfold ret. now rewrite append_nil_r.
Qed.

(** ** The dependency sub-step *)

(** [replace] leaves no space and touches nothing else. *)
Lemma replace_get (s : string) (i : nat) :
  String.get i (replace " " "-" s) =
  option_map (fun c => if Ascii.eqb c " " then "-"%char else c) (String.get i s).
Proof.
  revert i; induction s as [|c s IH]; intros i; simpl; [reflexivity|].
  destruct i as [|i]; [reflexivity|apply IH].
Qed.

Lemma dependency_loop (deps : list pyobj) (views : list (string * string)) :
  dependencies_of deps views ->
  forall out,
    for_each (fun dep =>
      (activity <- lift (getitem dep "activity") ;;
       activity' <- lift (getitem dep "activity") ;;
       anchor <- lift (replace_spaces activity') ;;
       conditions <- lift (getitem dep "dependencyConditions") ;;
       condition <- lift (getitem0 conditions) ;;
       write (format (lit "\n   * [{0}]({1}) ({2}) \n")
                     [py_format activity; "#" ++ anchor; py_format condition]))%io) deps out
    = (out ++ dependency_lines views, Ok tt).
Proof.
  induction 1 as [|dep v deps views Hdep _ IH]; intros out.
  - simpl. unfold ret. now rewrite append_nil_r.
  - destruct v as [name condition]; cbn [fst snd] in Hdep.
    inversion Hdep as [d o name' o' condition' more Ha Hc]; subst.
    cbn [for_each]; run.
    rewrite (getitem_field (PDict d) "activity" _ Ha); run.
    cbn [replace_spaces]; run.
    rewrite (getitem_field (PDict d) "dependencyConditions" _ Hc); run.
    cbn [getitem0]; run.
    rewrite IH.
    unfold dependency_lines; cbn [map texts fst snd].
    unfold dependency_line.
    f_equal. text_norm. reflexivity.
Qed.

Lemma read_activity_dependencies_of (act : pyobj) (deps : list pyobj)
    (views : list (string * string)) (out : string) :
  field act "dependsOn" = Some (PList deps) ->
  dependencies_of deps views ->
  read_activity_dependencies act out = (out ++ dependencies_text views, Ok tt).
Proof.
  intros Hd Hv.
  unfold read_activity_dependencies.
  rewrite (getitem_field _ _ _ Hd); run.
  destruct Hv as [|dep v deps views Hdep Hrest].
  - cbn [len List.length Nat.ltb Nat.leb]; run.
    unfold ret; cbn [dependencies_text]. now rewrite append_nil_r.
  - cbn [len List.length Nat.ltb Nat.leb]; run.
    cbn [iter]; run.
    rewrite (dependency_loop (dep :: deps) (v :: views)) by (constructor; assumption).
    cbn [dependencies_text]. f_equal. text_norm. reflexivity.
Qed.

(** C4: for an activity whose [dependsOn] is a non-empty list of
    dependencies, the dependency sub-step appends the Dependencies label
    once and then, for each dependency in the order of the list, one link
    line: the upstream name, the anchor # and the name with a hyphen for
    every space, and the first element of [dependencyConditions] in
    parentheses, whatever further conditions follow it. *)
Theorem read_activity_dependencies_lines (act : pyobj) (deps : list pyobj)
    (views : list (string * string)) (out : string) :
  field act "dependsOn" = Some (PList deps) ->
  deps <> [] ->
  dependencies_of deps views ->
  read_activity_dependencies act out
  = (out ++ nl ++ "   Dependencies:" ++ dependency_lines views, Ok tt).
Proof.
  intros Hd Hne Hv.
  rewrite (read_activity_dependencies_of act deps views out Hd Hv).
  destruct Hv; [contradiction|reflexivity].
Qed.

Lemma read_activity_dependencies_lines_witness :
  read_activity_dependencies two_dependencies ""
  = ("" ++ nl ++ "   Dependencies:"
        ++ dependency_lines [("A", "Succeeded"); ("B 2", "Failed")], Ok tt).
Proof.
  apply (read_activity_dependencies_lines two_dependencies
           [ PDict [ ("activity", PStr Runtime "A");
                     ("dependencyConditions",
                      PList [PStr Runtime "Succeeded"; PStr Runtime "Completed"]) ];
             PDict [ ("activity", PStr Runtime "B 2");
                     ("dependencyConditions", PList [PStr Runtime "Failed"]) ] ]).
  - reflexivity.
  - discriminate.
  - repeat constructor.
    + apply (dependency_intro _ Runtime "A" Runtime "Succeeded" [PStr Runtime "Completed"]);
        reflexivity.
    + apply (dependency_intro _ Runtime "B 2" Runtime "Failed" []); reflexivity.
Defined.

(** The example of the specification, written out. *)
Example two_dependencies_text :
  fst (read_activity_dependencies two_dependencies "")
  = nl ++ "   Dependencies:"
    ++ nl ++ "   * [A](#A) (Succeeded) " ++ nl
    ++ nl ++ "   * [B 2](#B-2) (Failed) " ++ nl.
Proof. reflexivity. Qed.

(** C8: for an activity whose [dependsOn] is the empty list, the dependency
    sub-step appends nothing: no label and no link line. *)
Theorem read_activity_dependencies_empty (act : pyobj) (out : string) :
  field act "dependsOn" = Some (PList []) ->
  read_activity_dependencies act out = (out, Ok tt).
Proof.
  intros Hd.
  unfold read_activity_dependencies.
  rewrite (getitem_field _ _ _ Hd); run.
  reflexivity.
Qed.

Lemma read_activity_dependencies_empty_witness :
  read_activity_dependencies wait_activity "" = ("", Ok tt).
Proof.
  apply (read_activity_dependencies_empty wait_activity ""); reflexivity.
Defined.

(** ** The header *)

Lemma write_pipeline_header (doc name : pyobj) (properties : list (string * pyobj))
    (acts : list pyobj) (out : string) :
  field doc "name" = Some name ->
  field doc "properties" = Some (PDict properties) ->
  assoc "activities" properties = Some (PList acts) ->
  write_pipeline doc out =
  for_each read_activity acts
    (out ++ header_text (py_format name)
                        (option_map py_format (assoc "description" properties))).
Proof.
  intros Hn Hp Ha.
  unfold write_pipeline.
  rewrite (getitem_field _ _ _ Hn); run.
  rewrite (getitem_field _ _ _ Hp); run.
  destruct (assoc "description" properties) as [x|] eqn:E.
  - rewrite (contains_present _ _ _ E); run.
    rewrite (getitem_field (PDict properties) "description" _ E); run.
    rewrite (getitem_field (PDict properties) "activities" _ Ha); run.
    cbn [iter]; run.
    f_equal. unfold header_text, pipeline_description_text; cbn [option_map optional].
    text_norm. reflexivity.
  - rewrite (contains_absent _ _ E); run.
    rewrite (getitem_field (PDict properties) "activities" _ Ha); run.
    cbn [iter]; run.
    f_equal. unfold header_text; cbn [option_map optional].
    text_norm. reflexivity.
Qed.

(** C7: a Description line is written exactly when the field is there.  The
    header of a pipeline holds the line of [properties.description] when
    [properties] has the key and nothing in its place otherwise; the
    description sub-step of an activity appends its line when the activity
    has the key, be its value the empty string, and nothing otherwise. *)
Theorem description_line_iff_present (doc name : pyobj)
    (properties : list (string * pyobj)) (acts : list pyobj) :
  field doc "name" = Some name ->
  field doc "properties" = Some (PDict properties) ->
  assoc "activities" properties = Some (PList acts) ->
  (forall out,
     write_pipeline doc out =
     for_each read_activity acts
       (out ++ nl ++ nl ++ " ## " ++ py_format name ++ " " ++ nl
            ++ match assoc "description" properties with
               | Some x => nl ++ " Description: " ++ py_format x ++ " " ++ nl
               | None => ""
               end
            ++ nl ++ nl ++ " ### Steps " ++ nl)) /\
  (forall act out,
     read_activity_description (PDict act) out =
     (out ++ match assoc "description" act with
             | Some x => "Description: " ++ py_format x ++ nl
             | None => ""
             end, Ok tt)).
Proof.
  intros Hn Hp Ha; split.
  - intros out.
    rewrite (write_pipeline_header doc name properties acts out Hn Hp Ha).
    destruct (assoc "description" properties); reflexivity.
  - intros act out. rewrite read_activity_description_dict.
    destruct (assoc "description" act); reflexivity.
Qed.

Lemma description_line_iff_present_witness :
  write_pipeline empty_pipeline ""
  = ("" ++ nl ++ nl ++ " ## Nightly " ++ nl
        ++ (nl ++ " Description:  " ++ nl)
        ++ nl ++ nl ++ " ### Steps " ++ nl, Ok tt) /\
  read_activity_description wait_activity "" = ("", Ok tt).
Proof.
  destruct (description_line_iff_present empty_pipeline (PStr Runtime "Nightly")
              [("description", PStr Runtime ""); ("activities", PList [])] []
              eq_refl eq_refl eq_refl) as [Hheader Hactivity].
  split.
  - exact (Hheader "").
  - exact (Hactivity [ ("name", PStr Runtime "Wait 1"); ("type", PStr Runtime "Wait");
                       ("dependsOn", PList []) ] "").
Defined.

(** ** Lookup errors of the query sub-step *)

Lemma query_fields_supported (tag query_field : string) :
  In (tag, query_field) query_fields ->
  forall o, in_supported_types (PStr o tag) = Ok true /\
            query_field_name_of (PStr o tag) = Ok query_field.
Proof.
  intros [H|[H|[]]]; inversion H; subst; repeat split.
Qed.

Lemma read_query_lookup_raises (act : pyobj) (key : string) (out : string) :
  query_lookup_fails act key ->
  read_query act out = (out, Raise (KeyError key)).
Proof.
  intros [d Hnone|d typeProperties source o tag query_field Htp Hs Ht Hin Hq];
    unfold read_query.
  - rewrite (getitem_missing _ _ Hnone); run. reflexivity.
  - rewrite (getitem_field (PDict d) "typeProperties" _ Htp); run.
    rewrite (contains_present _ _ _ Hs); run.
    rewrite (getitem_field (PDict typeProperties) "source" _ Hs); run.
    rewrite (getitem_field (PDict source) "type" _ Ht); run.
    destruct (query_fields_supported _ _ Hin o) as [-> ->]; run.
    rewrite (getitem_field (PDict typeProperties) "source" _ Hs); run.
    rewrite (getitem_missing _ _ Hq); run.
    reflexivity.
Qed.

(** A loop stops with an exception when its body raises at some item. *)
Lemma for_each_raises {A : Type} (body : A -> io unit) (x : A) (l : list A) :
  In x l ->
  (forall out, exists out' e, body x out = (out', Raise e)) ->
  forall out, exists out' e, for_each body l out = (out', Raise e).
Proof.
  intros Hin Hx.
  induction l as [|y l IH]; [contradiction|]; intros out.
  cbn [for_each]; unfold bind.
  destruct (body y out) as [out1 [[]|e]] eqn:E.
  - destruct Hin as [->|Hin].
    + destruct (Hx out) as (out' & e & Hr). congruence.
    + apply (IH Hin).
  - now exists out1, e.
Qed.

Lemma read_activity_lookup_raises (act : pyobj) (key : string) (out : string) :
  query_lookup_fails act key ->
  exists out' e, read_activity act out = (out', Raise e).
Proof.
  intros Hf.
  assert (Hd : exists d, act = PDict d) by (destruct Hf; eauto).
  destruct Hd as [d ->].
  unfold read_activity.
  destruct (assoc "name" d) as [name|] eqn:En.
  - rewrite (getitem_field (PDict d) "name" _ En); run.
    destruct (assoc "type" d) as [type|] eqn:Et.
    + rewrite (getitem_field (PDict d) "type" _ Et); run.
      unfold bind at 1. rewrite read_activity_description_dict.
      unfold bind at 1. rewrite (read_query_lookup_raises _ _ _ Hf).
      eauto.
    + rewrite (getitem_missing _ _ Et); run. eauto.
  - rewrite (getitem_missing _ _ En); run. eauto.
Qed.

(** C9: when the source type of an activity is one of the two tags and the
    source has no field of the mapped name, and when an activity has no
    [typeProperties], the query sub-step raises the [KeyError] of the
    missing key and writes no query block; the exception leaves the
    Activity Writer after the bullet and the description, and it ends the
    rendering of every pipeline that holds such an activity. *)
Theorem read_query_lookup_error (act : pyobj) (key : string) :
  query_lookup_fails act key ->
  (forall out, read_query act out = (out, Raise (KeyError key))) /\
  (forall name type out,
     field act "name" = Some name ->
     field act "type" = Some type ->
     read_activity act out =
     (out ++ bullet (py_format name) (py_format type)
          ++ match field act "description" with
             | Some x => activity_description_text (py_format x)
             | None => ""
             end, Raise (KeyError key))) /\
  (forall doc properties acts out,
     field doc "properties" = Some (PDict properties) ->
     assoc "activities" properties = Some (PList acts) ->
     In act acts ->
     exists out' e, write_pipeline doc out = (out', Raise e)).
Proof.
  intros Hf; split; [|split].
  - intros out. now apply read_query_lookup_raises.
  - intros name type out Hn Ht.
    assert (Hd : exists d, act = PDict d) by (destruct Hf; eauto).
    destruct Hd as [d ->].
    unfold read_activity.
    rewrite (getitem_field _ _ _ Hn); run.
    rewrite (getitem_field _ _ _ Ht); run.
    unfold bind at 1. rewrite read_activity_description_dict.
    unfold bind at 1. rewrite (read_query_lookup_raises _ _ _ Hf).
    f_equal. unfold bullet; cbn [field]. text_norm. reflexivity.
  - intros doc properties acts out Hp Ha Hin.
    destruct doc as [| | | | | |d]; try discriminate Hp.
    unfold write_pipeline.
    destruct (assoc "name" d) as [name|] eqn:En.
    + fold (write_pipeline (PDict d)).
      rewrite (write_pipeline_header (PDict d) name properties acts out En Hp Ha).
      apply (for_each_raises read_activity act acts Hin).
      intros out0. now apply (read_activity_lookup_raises act key).
    + rewrite (getitem_missing _ _ En); run. eauto.
Qed.

Lemma read_query_lookup_error_witness :
  read_query table_activity "" = ("", Raise (KeyError "oracleReaderQuery")) /\
  read_query wait_activity "" = ("", Raise (KeyError "typeProperties")) /\
  exists out' e, write_pipeline broken_pipeline "" = (out', Raise e).
Proof.
  assert (Htable : query_lookup_fails table_activity "oracleReaderQuery").
  { apply (lacks_query_field _ [("source", PDict [("type", PStr Runtime "OracleSource")])]
             [("type", PStr Runtime "OracleSource")] Runtime "OracleSource");
      try reflexivity.
    right; left; reflexivity. }
  assert (Hwait : query_lookup_fails wait_activity "typeProperties").
  { apply lacks_typeProperties; reflexivity. }
  split; [|split].
  - exact (proj1 (read_query_lookup_error _ _ Htable) "").
  - exact (proj1 (read_query_lookup_error _ _ Hwait) "").
  - apply (proj2 (proj2 (read_query_lookup_error _ _ Htable)) broken_pipeline
             [("activities", PList [blob_activity; table_activity; blob_activity])]
             [blob_activity; table_activity; blob_activity] "");
      try reflexivity.
    right; left; reflexivity.
Defined.

(** The broken pipeline stops in its second activity: the header, the first
    activity and the bullet of the second are written, the third activity
    is not. *)
Example broken_pipeline_truncated :
  write_pipeline broken_pipeline ""
  = (header_text "Broken" None ++ bullet "Copy Blob" "Copy" ++ bullet "Copy Table" "Copy",
     Raise (KeyError "oracleReaderQuery")).
Proof. reflexivity. Qed.

(** ** The whole rendering *)

Lemma read_query_of (act : pyobj) (typeProperties : list (string * pyobj))
    (query : option string) (out : string) :
  field act "typeProperties" = Some (PDict typeProperties) ->
  query_of typeProperties query ->
  read_query act out = (out ++ optional query_block query, Ok tt).
Proof.
  intros Htp Hq.
  unfold read_query.
  rewrite (getitem_field _ _ _ Htp); run.
  destruct Hq as [Hnone|source o tag Hs Ht N1 N2
                 |source o tag query_field value resolved Hs Ht Hin Hf Hv].
  - rewrite (contains_absent _ _ Hnone); run.
    unfold ret; cbn [optional]. now rewrite append_nil_r.
  - rewrite (contains_present _ _ _ Hs); run.
    rewrite (getitem_field (PDict typeProperties) "source" _ Hs); run.
    rewrite (getitem_field (PDict source) "type" _ Ht); run.
    unfold in_supported_types.
    rewrite (assoc_supported_types tag N1 N2); run.
    unfold ret; cbn [optional]. now rewrite append_nil_r.
  - rewrite (contains_present _ _ _ Hs); run.
    rewrite (getitem_field (PDict typeProperties) "source" _ Hs); run.
    rewrite (getitem_field (PDict source) "type" _ Ht); run.
    destruct (query_fields_supported _ _ Hin o) as [-> ->]; run.
    rewrite (getitem_field (PDict typeProperties) "source" _ Hs); run.
    rewrite (getitem_field (PDict source) query_field _ Hf); run.
    rewrite Hv; run.
    unfold write; cbn [optional]; unfold query_block.
    f_equal. text_norm. reflexivity.
Qed.

Lemma read_activity_of (act : pyobj) (a : activity_view) (out : string) :
  activity_of act a ->
  read_activity act out = (out ++ activity_text a, Ok tt).
Proof.
  intros [d o name o' type description typeProperties query deps views
          Hn Ht Hdesc Htp Hq Hd Hv].
  unfold read_activity.
  rewrite (getitem_field (PDict d) "name" _ Hn); run.
  rewrite (getitem_field (PDict d) "type" _ Ht); run.
  unfold bind at 1. rewrite read_activity_description_dict.
  unfold bind at 1. rewrite (read_query_of (PDict d) typeProperties query _ Htp Hq).
  rewrite (read_activity_dependencies_of (PDict d) deps views _ Hd Hv).
  unfold activity_text, bullet; cbn [a_name a_type a_description a_query a_dependencies].
  f_equal.
  destruct Hdesc as [E|od s E]; rewrite E; cbn [optional py_format];
    text_norm; reflexivity.
Qed.

Lemma read_activities_of (acts : list pyobj) (views : list activity_view) :
  Forall2 activity_of acts views ->
  forall out,
    for_each read_activity acts out = (out ++ texts (map activity_text views), Ok tt).
Proof.
  induction 1 as [|act a acts views Ha _ IH]; intros out.
  - cbn. unfold ret. now rewrite append_nil_r.
  - cbn [for_each map texts]. unfold bind.
    rewrite (read_activity_of act a out Ha), IH.
    now rewrite append_assoc.
Qed.

(** ** Activities without a query block *)

Lemma query_of_skipped (typeProperties : list (string * pyobj)) (query : option string) :
  (assoc "source" typeProperties = None \/
   exists source o tag,
     assoc "source" typeProperties = Some (PDict source) /\
     assoc "type" source = Some (PStr o tag) /\
     tag <> "SqlServerSource" /\ tag <> "OracleSource") ->
  query_of typeProperties query ->
  query = None.
Proof.
  intros Hsrc Hq.
  destruct Hq as [?|? ? ? ? ? ? ?|source' o' tag' query_field value resolved Hs' Ht' Hin _ _];
    try reflexivity.
  exfalso.
  destruct Hsrc as [Hnone|(source & o & tag & Hs & Ht & N1 & N2)]; [congruence|].
  assert (source' = source) by congruence; subst source'.
  assert (tag' = tag) by congruence; subst tag'.
  destruct Hin as [H|[H|[]]]; inversion H; subst; contradiction.
Qed.

(** C3, as stated, fails: an activity without [typeProperties] has no
    [typeProperties.source], and the query sub-step, and with it the
    Activity Writer, raises [KeyError] on it. *)
Lemma read_query_no_typeProperties_raises :
  source_of wait_activity = None /\
  read_query wait_activity "" = ("", Raise (KeyError "typeProperties")) /\
  snd (read_activity wait_activity "") = Raise (KeyError "typeProperties").
Proof. repeat split. Qed.

(** C3, amended: for an activity that has a [typeProperties] object, when
    that object has no [source], or its [source] is an object whose [type]
    is a string other than the two tags of the table, the query sub-step
    writes nothing and raises nothing, whatever else [source] holds; the
    Activity Writer of such an activity, when its name, type, description
    and dependencies are those of the data model, succeeds with the bullet,
    the description line and the dependency lines, and no query block. *)
Theorem read_query_no_block (act : pyobj) (typeProperties : list (string * pyobj)) :
  field act "typeProperties" = Some (PDict typeProperties) ->
  (assoc "source" typeProperties = None \/
   exists source o tag,
     assoc "source" typeProperties = Some (PDict source) /\
     assoc "type" source = Some (PStr o tag) /\
     tag <> "SqlServerSource" /\ tag <> "OracleSource") ->
  (forall out, read_query act out = (out, Ok tt)) /\
  (forall a out,
     activity_of act a ->
     read_activity act out =
     (out ++ bullet (a_name a) (a_type a)
          ++ optional activity_description_text (a_description a)
          ++ dependencies_text (a_dependencies a), Ok tt)).
Proof.
  intros Htp Hsrc; split.
  - intros out. exact (read_query_skips act typeProperties out Htp Hsrc).
  - intros a out Ha.
    rewrite (read_activity_of act a out Ha).
    assert (Hq : a_query a = None).
    { destruct Ha as [d o name o' type description typeProperties' query deps views
                      _ _ _ Htp' Hq _ _].
      cbn [field] in Htp. rewrite Htp' in Htp. inversion Htp; subst.
      exact (query_of_skipped typeProperties query Hsrc Hq). }
    unfold activity_text. rewrite Hq. reflexivity.
Qed.

Lemma read_query_no_block_witness :
  read_query blob_activity "" = ("", Ok tt) /\
  read_query (PDict [("typeProperties", PDict [])]) "" = ("", Ok tt).
Proof.
  split.
  - apply (read_query_no_block blob_activity
             [("source", PDict [("type", PStr Runtime "BlobSource");
                                ("sqlReaderQuery", PStr Runtime "SELECT 1")])]).
    + reflexivity.
    + right.
      exists [("type", PStr Runtime "BlobSource"); ("sqlReaderQuery", PStr Runtime "SELECT 1")].
      exists Runtime, "BlobSource".
      repeat split; discriminate.
  - apply (read_query_no_block _ []); [reflexivity | left; reflexivity].
Defined.

(** The activity with a source outside the table and a query-like field:
    its bullet and nothing else. *)
Example blob_activity_text :
  read_activity blob_activity "" = (bullet "Copy Blob" "Copy", Ok tt).
Proof. reflexivity. Qed.

(** ** The rendered document *)

Lemma write_pipeline_view (doc : pyobj) (p : pipeline_view) (out : string) :
  pipeline_of doc p ->
  write_pipeline doc out = (out ++ pipeline_text p, Ok tt).
Proof.
  intros [d o name properties description acts views Hn Hp Hdesc Ha Hv].
  rewrite (write_pipeline_header (PDict d) (PStr o name) properties acts out Hn Hp Ha).
  rewrite (read_activities_of acts views Hv).
  unfold pipeline_text; cbn [p_name p_description p_activities py_format].
  rewrite append_assoc.
  destruct Hdesc as [E|od s E]; rewrite E; reflexivity.
Qed.

(** A plain string without the substring type is what the resolver returns
    for it, so the plain reading of a document is one of its readings. *)
Lemma plain_query_view (typeProperties : list (string * pyobj)) (query : option string) :
  plain_query_of typeProperties query -> query_of typeProperties query.
Proof.
  intros [Hnone|source o tag Hs Ht N1 N2|source o tag query_field o' text Hs Ht Hin Hf Hplain].
  - now apply query_no_source.
  - now apply (query_unsupported typeProperties source o tag).
  - apply (query_resolved typeProperties source o tag query_field
             (PStr o' text) (PStr o' text) Hs Ht Hin Hf).
    now rewrite plain_string_get_value, Hplain.
Qed.

Lemma plain_activity_view (act : pyobj) (a : activity_view) :
  plain_activity_of act a -> activity_of act a.
Proof.
  intros [d o name o' type description typeProperties query deps views
          Hn Ht Hdesc Htp Hq Hd Hv].
  apply (activity_intro d o name o' type description typeProperties query deps views);
    try assumption.
  now apply plain_query_view.
Qed.

Lemma plain_pipeline_view (doc : pyobj) (p : pipeline_view) :
  plain_pipeline_of doc p -> pipeline_of doc p.
Proof.
  intros [d o name properties description acts views Hn Hp Hdesc Ha Hv].
  apply (pipeline_intro d o name properties description acts views); try assumption.
  clear Ha.
  induction Hv as [|act a acts views Hact _ IH]; constructor;
    [now apply plain_activity_view|exact IH].
Qed.

(** C5, as stated, fails: a document that follows the data model of the
    specification may hold activities without [typeProperties]; the
    rendering stops at the first of them with [KeyError], and the text in
    the file is shorter than the text of the specification, which has the
    bullet of every activity. *)
Lemma write_pipeline_no_typeProperties_truncated :
  spec_document two_waits_pipeline = true /\
  write_pipeline two_waits_pipeline ""
  = (header_text "Pause" None ++ bullet "Wait 1" "Wait", Raise (KeyError "typeProperties")) /\
  pipeline_text two_waits_view
  = header_text "Pause" None ++ bullet "Wait 1" "Wait" ++ bullet "Wait 2" "Wait" /\
  fst (write_pipeline two_waits_pipeline "") <> pipeline_text two_waits_view.
Proof.
  repeat split.
  intros H. apply (f_equal String.length) in H.
  vm_compute in H. discriminate H.
Qed.

(** C5, amended: for a pipeline document whose name is a string, whose
    [properties] hold an optional string description and a list of
    activities, each activity an object with a string name and type, an
    optional string description, a [typeProperties] object, and a list
    [dependsOn] of dependencies, where the query of a source of a type of
    the table is a plain string without the substring type, the rendering
    succeeds and appends exactly the header, the description line if any,
    the Steps heading and, for each activity in the order of the document,
    its bullet, its description line if any, the query block around its
    query if the source type is in the table, and its dependency lines. *)
Theorem write_pipeline_text (doc : pyobj) (p : pipeline_view) (out : string) :
  plain_pipeline_of doc p ->
  write_pipeline doc out = (out ++ pipeline_text p, Ok tt).
Proof.
  intros Hdoc.
  exact (write_pipeline_view doc p out (plain_pipeline_view doc p Hdoc)).
Qed.

Lemma load_sales_plain : plain_pipeline_of load_sales load_sales_view.
Proof.
  apply (plain_pipeline_intro _ Runtime "Load Sales"
           [("activities", PList [
               PDict [ ("name", PStr Runtime "Copy Data");
                       ("type", PStr Runtime "Copy");
                       ("description", PStr Runtime "copies rows");
                       ("typeProperties", PDict []);
                       ("dependsOn", PList []) ] ])]
           None
           [ PDict [ ("name", PStr Runtime "Copy Data");
                     ("type", PStr Runtime "Copy");
                     ("description", PStr Runtime "copies rows");
                     ("typeProperties", PDict []);
                     ("dependsOn", PList []) ] ]);
    try reflexivity.
  - apply description_absent; reflexivity.
  - constructor; [|constructor].
    apply (plain_activity_intro _ Runtime "Copy Data" Runtime "Copy" (Some "copies rows") []
             None [] []); try reflexivity.
    + apply (description_present _ Runtime "copies rows"); reflexivity.
    + apply plain_no_source; reflexivity.
    + constructor.
Qed.

Lemma write_pipeline_text_witness :
  write_pipeline load_sales "" = ("" ++ pipeline_text load_sales_view, Ok tt).
Proof.
  apply (write_pipeline_text load_sales load_sales_view ""). exact load_sales_plain.
Defined.

(** The end-to-end example of the specification, written out: the header,
    the Steps heading, the bullet and the description line. *)
Example load_sales_text :
  write_pipeline load_sales ""
  = (nl ++ nl ++ " ## Load Sales " ++ nl
     ++ nl ++ nl ++ " ### Steps " ++ nl
     ++ nl ++ " * Name: __Copy Data__, Type: Copy  " ++ nl
     ++ "Description: copies rows" ++ nl, Ok tt).
Proof. reflexivity. Qed.

(** A pipeline with a query block: the query is in the block as it is in
    the document. *)
Example sql_pipeline_text :
  write_pipeline
    (PDict [ ("name", PStr Runtime "Sales");
             ("properties", PDict [ ("activities",
                PList [ sql_activity "SELECT id FROM t" ]) ]) ]) ""
  = (header_text "Sales" None ++ bullet "Copy Rows" "Copy"
     ++ query_block "SELECT id FROM t", Ok tt).
Proof. reflexivity. Qed.

(** A query with the substring type stops the rendering in the Expression
    Resolver, before the query block. *)
Example typed_query_pipeline_raises :
  spec_document typed_query_pipeline = true /\
  write_pipeline typed_query_pipeline ""
  = (header_text "Typed" None ++ bullet "Copy Types" "Copy", Raise TypeError).
Proof. split; reflexivity. Qed.

(** ** Malformed input *)

Lemma created_same (name : string) (fs : filesystem) :
  content name (created name fs) = content name fs.
Proof.
  unfold content, created. rewrite String.eqb_refl.
  destruct (fs name); reflexivity.
Qed.

Lemma created_other (name p : string) (fs : filesystem) :
  p <> name -> created name fs p = fs p.
Proof.
  intros Hp. unfold created.
  now rewrite (proj2 (String.eqb_neq p name) Hp).
Qed.

Lemma created_existing (name p text : string) (fs : filesystem) :
  fs p = Some text -> created name fs p = Some text.
Proof.
  intros Hp. unfold created.
  destruct (String.eqb_spec p name) as [->|_]; [now rewrite Hp|assumption].
Qed.

(** C6: when the text of the pipeline file is not well-formed JSON, so that
    [json.load] raises, the rendering ends with an exception, that of
    [json.load] when the Markdown file could be opened and that of [open]
    otherwise, and nothing has been appended to the Markdown file: its text
    is what it was (the empty text for a file that [open] has just created),
    and no other file has changed. *)
Theorem read_pipeline_malformed (json_load : string -> result pyobj)
    (append_error : string -> option exn)
    (pipeline_file_name markdown_file_name : string) (fs : filesystem)
    (text : string) (e : exn) :
  fs pipeline_file_name = Some text ->
  json_load text = Raise e ->
  (exists e',
     snd (read_pipeline json_load append_error pipeline_file_name markdown_file_name fs)
     = Raise e') /\
  (append_error markdown_file_name = None ->
   snd (read_pipeline json_load append_error pipeline_file_name markdown_file_name fs)
   = Raise e) /\
  content markdown_file_name
    (fst (read_pipeline json_load append_error pipeline_file_name markdown_file_name fs))
  = content markdown_file_name fs /\
  forall p, p <> markdown_file_name ->
    fst (read_pipeline json_load append_error pipeline_file_name markdown_file_name fs) p
    = fs p.
Proof.
  intros Hfile Hload.
  unfold read_pipeline, open_append.
  destruct (append_error markdown_file_name) as [e0|].
  - cbn [fst snd]. repeat split; eauto. discriminate.
  - rewrite (created_existing markdown_file_name _ _ fs Hfile), Hload.
    cbn [fst snd]. split; [eauto|split; [reflexivity|split]].
    + apply created_same.
    + intros p Hp. now apply created_other.
Qed.

Lemma read_pipeline_malformed_witness :
  snd (read_pipeline sample_load sample_append_error
         "pipeline/truncated.json" "factory.md" sample_files)
  = Raise JSONDecodeError /\
  content "factory.md"
    (fst (read_pipeline sample_load sample_append_error
            "pipeline/truncated.json" "factory.md" sample_files))
  = "# Pipelines".
Proof.
  destruct (read_pipeline_malformed sample_load sample_append_error
              "pipeline/truncated.json" "factory.md"
              sample_files "{ name: " JSONDecodeError eq_refl eq_refl)
    as (_ & Hr & Hc & _).
  split; [exact (Hr eq_refl)|exact Hc].
Defined.

(** ** Determinism *)

Lemma framed_ret {A : Type} (a : A) : framed (ret a).
Proof. intros out; cbn. now rewrite append_nil_r. Qed.

Lemma framed_lift {A : Type} (r : result A) : framed (lift r).
Proof. intros out; cbn. now rewrite append_nil_r. Qed.

Lemma framed_write (s : string) : framed (write s).
Proof. intros out; reflexivity. Qed.

Lemma framed_bind {A B : Type} (m : io A) (k : A -> io B) :
  framed m -> (forall a, framed (k a)) -> framed (bind m k).
Proof.
  intros Hm Hk out. unfold bind.
  rewrite (Hm out).
  destruct (m "") as [t [a|e]]; cbn [fst snd]; [|reflexivity].
  rewrite (Hk a (out ++ t)), (Hk a t); cbn [fst snd].
  now rewrite append_assoc.
Qed.

Lemma framed_for_each {A : Type} (body : A -> io unit) (l : list A) :
  (forall x, framed (body x)) -> framed (for_each body l).
Proof.
  intros Hb. induction l as [|x l IH]; cbn [for_each].
  - apply framed_ret.
  - apply framed_bind; [apply Hb|intros _; exact IH].
Qed.

(** Splits an action into its steps; every step only appends. *)
Ltac frame :=
  repeat first
    [ apply framed_ret | apply framed_lift | apply framed_write
    | apply framed_for_each; intro
    | apply framed_bind; [|intro]
    | match goal with
      | |- framed (if ?b then _ else _) => destruct b
      end ].

Lemma framed_read_activity_description (act : pyobj) :
  framed (read_activity_description act).
Proof. unfold read_activity_description. frame. Qed.

Lemma framed_read_query (act : pyobj) : framed (read_query act).
Proof. unfold read_query. frame. Qed.

Lemma framed_read_activity_dependencies (act : pyobj) :
  framed (read_activity_dependencies act).
Proof. unfold read_activity_dependencies. frame. Qed.

Lemma framed_read_activity (act : pyobj) : framed (read_activity act).
Proof.
  unfold read_activity.
  do 3 (apply framed_bind; [frame|intro]).
  apply framed_bind; [apply framed_read_activity_description|intro].
  apply framed_bind; [apply framed_read_query|intro].
  apply framed_read_activity_dependencies.
Qed.

Lemma framed_write_pipeline (doc : pyobj) : framed (write_pipeline doc).
Proof.
  unfold write_pipeline.
  do 9 (apply framed_bind; [frame|intro]).
  apply framed_for_each. exact framed_read_activity.
Qed.

(** C10: the rendering is a function of the document.  Whatever text the
    Markdown file holds, the rendering of a document appends the same text
    [rendered doc] to it and ends in the same way; so every run of
    [read_pipeline] on a file that decodes to that document, in whatever
    state of the files, extends the Markdown file by that text, and a run
    that cannot open the Markdown file raises the exception of [open] and
    changes nothing. *)
Theorem rendering_deterministic (json_load : string -> result pyobj)
    (append_error : string -> option exn)
    (pipeline_file_name markdown_file_name : string) (fs : filesystem)
    (text : string) (doc : pyobj) :
  fs pipeline_file_name = Some text ->
  json_load text = Ok doc ->
  (forall out, write_pipeline doc out = (out ++ rendered doc, outcome doc)) /\
  (append_error markdown_file_name = None ->
   snd (read_pipeline json_load append_error pipeline_file_name markdown_file_name fs)
   = outcome doc /\
   content markdown_file_name
     (fst (read_pipeline json_load append_error pipeline_file_name markdown_file_name fs))
   = content markdown_file_name fs ++ rendered doc) /\
  (forall e,
     append_error markdown_file_name = Some e ->
     read_pipeline json_load append_error pipeline_file_name markdown_file_name fs
     = (fs, Raise e)).
Proof.
  intros Hfile Hload.
  split; [exact (framed_write_pipeline doc)|].
  unfold read_pipeline, open_append.
  split.
  - intros ->.
    rewrite (created_existing markdown_file_name _ _ fs Hfile), Hload.
    rewrite (framed_write_pipeline doc (content markdown_file_name _)).
    cbn [fst snd]. split; [reflexivity|].
    unfold content at 1, set_file. rewrite String.eqb_refl.
    now rewrite created_same.
  - intros e ->. reflexivity.
Qed.

Lemma rendering_deterministic_witness :
  content "factory.md"
    (fst (read_pipeline sample_load sample_append_error
            "pipeline/load_sales.json" "factory.md" sample_files))
  = "# Pipelines" ++ rendered load_sales /\
  content "new.md"
    (fst (read_pipeline sample_load sample_append_error
            "pipeline/load_sales.json" "new.md" sample_files))
  = "" ++ rendered load_sales.
Proof.
  split.
  - exact (proj2 (proj1 (proj2 (rendering_deterministic sample_load sample_append_error
                                  "pipeline/load_sales.json" "factory.md" sample_files
                                  load_sales_json load_sales eq_refl eq_refl))
                        eq_refl)).
  - exact (proj2 (proj1 (proj2 (rendering_deterministic sample_load sample_append_error
                                  "pipeline/load_sales.json" "new.md" sample_files
                                  load_sales_json load_sales eq_refl eq_refl))
                        eq_refl)).
Defined.

(** * Further properties of the module *)

(** ** The Expression Resolver on loaded documents *)

Lemma loaded_not_literal (x : pyobj) (text : string) :
  loaded x = true -> is_literal x text = false.
Proof.
  destruct x as [| | | |[|] s| |]; simpl; intros H; try reflexivity; discriminate.
Qed.

Lemma assoc_loaded (d : list (string * pyobj)) (k : string) (v : pyobj) :
  forallb (fun kv => match kv with (_, v) => loaded v end) d = true ->
  assoc k d = Some v -> loaded v = true.
Proof.
  induction d as [|[k' v'] d IH]; cbn [forallb assoc]; [discriminate|].
  intros H. apply andb_prop in H. destruct H as [Hv Hd].
  destruct (String.eqb k' k); [intros E; inversion E; now subst|now apply IH].
Qed.

(** X1: on an object that [json.load] built, whatever its shape, the resolver
    returns the very object or raises [TypeError]: it never returns the
    [value] of an Expression. *)
Theorem resolver_returns_loaded_object (x : pyobj) :
  loaded x = true ->
  get_value x = Ok x \/ get_value x = Raise TypeError.
Proof.
  intros Hx.
  destruct x as [| b | z | r | o s | l | d]; try (right; reflexivity).
  - rewrite plain_string_get_value.
    destruct (substring_in "type" s); [right|left]; reflexivity.
  - unfold get_value, is_expression; cbn [contains rbind].
    destruct (existsb (fun x => eq_str x "type") l); [right|left]; reflexivity.
  - rewrite get_value_dict.
    destruct (assoc "type" d) as [marker|] eqn:E; [|left; reflexivity].
    cbn [loaded] in Hx.
    rewrite (loaded_not_literal marker "Expression" (assoc_loaded d "type" marker Hx E)).
    left; reflexivity.
Qed.

Lemma resolver_returns_loaded_object_witness :
  get_value (PDict [("value", PStr Runtime "SELECT 1"); ("type", PStr Runtime "Expression")])
  = Ok (PDict [("value", PStr Runtime "SELECT 1"); ("type", PStr Runtime "Expression")]) \/
  get_value (PDict [("value", PStr Runtime "SELECT 1"); ("type", PStr Runtime "Expression")])
  = Raise TypeError.
Proof.
  apply (resolver_returns_loaded_object
           (PDict [("value", PStr Runtime "SELECT 1"); ("type", PStr Runtime "Expression")])).
  reflexivity.
Defined.

(** ** The query sub-step writes a whole block or nothing *)

(** X2: whatever the activity, the query sub-step leaves the file as it was
    when it raises, and when it returns it has appended nothing or exactly
    one query block. *)
Theorem read_query_block_or_nothing (act : pyobj) (out : string) :
  (exists e, read_query act out = (out, Raise e)) \/
  read_query act out = (out, Ok tt) \/
  (exists query, read_query act out = (out ++ query_block query, Ok tt)).
Proof.
  unfold read_query.
  destruct (getitem act "typeProperties") as [typeProperties|e]; run; [|left; eauto].
  destruct (contains typeProperties "source") as [[|]|e]; run;
    [|right; left; reflexivity|left; eauto].
  destruct (getitem typeProperties "source") as [source|e] eqn:Hs; run; [|left; eauto].
  destruct (getitem source "type") as [source_type|e]; run; [|left; eauto].
  destruct (in_supported_types source_type) as [[|]|e]; run;
    [|right; left; reflexivity|left; eauto].
  destruct (query_field_name_of source_type) as [query_field_name|e]; run; [|left; eauto].
  rewrite Hs; run.
  destruct (getitem source query_field_name) as [value|e]; run; [|left; eauto].
  destruct (get_value value) as [query|e]; run; [|left; eauto].
  right; right. exists (py_format query).
  generalize (py_format query); intros text.
  unfold write, query_block. f_equal. text_norm. reflexivity.
Qed.

(** X3: a plain string query of a source of the table is written verbatim in
    one block, unless its text has the substring type: then the sub-step
    raises [TypeError] and writes nothing. *)
Theorem read_query_plain_string (act : pyobj) (typeProperties source : list (string * pyobj))
    (o o' : origin) (tag query_field query : string) (out : string) :
  field act "typeProperties" = Some (PDict typeProperties) ->
  assoc "source" typeProperties = Some (PDict source) ->
  assoc "type" source = Some (PStr o tag) ->
  In (tag, query_field) query_fields ->
  assoc query_field source = Some (PStr o' query) ->
  read_query act out =
  if substring_in "type" query
  then (out, Raise TypeError)
  else (out ++ query_block query, Ok tt).
Proof.
  intros Htp Hs Ht Hin Hf.
  destruct (substring_in "type" query) eqn:E.
  - unfold read_query.
    rewrite (getitem_field _ _ _ Htp); run.
    rewrite (contains_present _ _ _ Hs); run.
    rewrite (getitem_field (PDict typeProperties) "source" _ Hs); run.
    rewrite (getitem_field (PDict source) "type" _ Ht); run.
    destruct (query_fields_supported _ _ Hin o) as [-> ->]; run.
    rewrite (getitem_field (PDict typeProperties) "source" _ Hs); run.
    rewrite (getitem_field (PDict source) query_field _ Hf); run.
    rewrite plain_string_get_value, E; run. reflexivity.
  - apply (read_query_of act typeProperties (Some query) out Htp).
    apply (query_resolved typeProperties source o tag query_field
             (PStr o' query) (PStr o' query) Hs Ht Hin Hf).
    now rewrite plain_string_get_value, E.
Qed.

Lemma read_query_plain_string_witness :
  read_query (sql_activity "SELECT id FROM t") "" = ("" ++ query_block "SELECT id FROM t", Ok tt) /\
  read_query (sql_activity "SELECT type FROM t") "" = ("", Raise TypeError).
Proof.
  split.
  - apply (read_query_plain_string (sql_activity "SELECT id FROM t")
             [("source", PDict [("type", PStr Runtime "SqlServerSource");
                                ("sqlReaderQuery", PStr Runtime "SELECT id FROM t")])]
             [("type", PStr Runtime "SqlServerSource");
              ("sqlReaderQuery", PStr Runtime "SELECT id FROM t")]
             Runtime Runtime "SqlServerSource" "sqlReaderQuery" "SELECT id FROM t" "");
      try reflexivity.
    left; reflexivity.
  - apply (read_query_plain_string (sql_activity "SELECT type FROM t")
             [("source", PDict [("type", PStr Runtime "SqlServerSource");
                                ("sqlReaderQuery", PStr Runtime "SELECT type FROM t")])]
             [("type", PStr Runtime "SqlServerSource");
              ("sqlReaderQuery", PStr Runtime "SELECT type FROM t")]
             Runtime Runtime "SqlServerSource" "sqlReaderQuery" "SELECT type FROM t" "");
      try reflexivity.
    left; reflexivity.
Defined.

(** X4: a source whose [type] is missing makes the sub-step raise [KeyError];
    a [type] that is a list or an object cannot be hashed and raises
    [TypeError]; a [type] that is a number, a boolean or null is in no
    table, and the sub-step returns without a block. *)
Theorem read_query_source_type (act : pyobj) (typeProperties source : list (string * pyobj))
    (out : string) :
  field act "typeProperties" = Some (PDict typeProperties) ->
  assoc "source" typeProperties = Some (PDict source) ->
  (forall o tag, assoc "type" source <> Some (PStr o tag)) ->
  read_query act out =
  match assoc "type" source with
  | None => (out, Raise (KeyError "type"))
  | Some (PList _) | Some (PDict _) => (out, Raise TypeError)
  | Some _ => (out, Ok tt)
  end.
Proof.
  intros Htp Hs Hnot.
  destruct (assoc "type" source) as [[| b | z | r | o tag | l | d]|] eqn:Ht;
    try (exfalso; exact (Hnot o tag eq_refl));
    unfold read_query;
    rewrite (getitem_field _ _ _ Htp); run;
    rewrite (contains_present _ _ _ Hs); run;
    rewrite (getitem_field (PDict typeProperties) "source" _ Hs); run;
    first [ rewrite (getitem_field (PDict source) "type" _ Ht)
          | rewrite (getitem_missing _ _ Ht) ];
    run; reflexivity.
Qed.

Lemma read_query_source_type_witness :
  read_query numbered_source_activity "" = ("", Ok tt).
Proof.
  apply (read_query_source_type numbered_source_activity
           [("source", PDict [("type", PInt 7)])] [("type", PInt 7)] "");
    try reflexivity.
  intros o tag H; discriminate H.
Defined.

(** ** Where the loops stop *)

Lemma for_each_stops {A : Type} (body : A -> io unit) (pre post : list A) (x : A)
    (out out1 out2 : string) (e : exn) :
  for_each body pre out = (out1, Ok tt) ->
  body x out1 = (out2, Raise e) ->
  for_each body (pre ++ x :: post) out = (out2, Raise e).
Proof.
  revert out. induction pre as [|y pre IH]; intros out Hpre Hx.
  - cbn in Hpre. inversion Hpre; subst.
    cbn [app for_each]. unfold bind. now rewrite Hx.
  - cbn [app for_each] in *. unfold bind in *.
    destruct (body y out) as [o [[]|e']]; [|discriminate].
    now apply IH.
Qed.

(** X5: the dependency sub-step stops at the first dependency it cannot read:
    the label and the lines of the dependencies before it are written, and
    the exception of that dependency is raised; the dependencies after it
    are not visited. *)
Theorem read_activity_dependencies_stops (act : pyobj) (pre post : list pyobj)
    (bad : pyobj) (views : list (string * string)) (e : exn) (out : string) :
  field act "dependsOn" = Some (PList (pre ++ bad :: post)) ->
  dependencies_of pre views ->
  dependency_error bad e ->
  read_activity_dependencies act out
  = (out ++ nl ++ "   Dependencies:" ++ dependency_lines views, Raise e).
Proof.
  intros Hd Hpre Hbad.
  unfold read_activity_dependencies.
  rewrite (getitem_field _ _ _ Hd); run.
  cbn [len].
  assert (Hlen : (0 <? List.length (pre ++ bad :: post))%nat = true)
    by (destruct pre; reflexivity).
  run. rewrite Hlen; run. cbn [iter]; run.
  match goal with |- for_each ?b _ _ = _ => set (body := b) end.
  apply (for_each_stops body pre post bad _
           ((out ++ lit "\n   Dependencies:") ++ dependency_lines views)).
  - exact (dependency_loop pre views Hpre _).
  - rewrite append_assoc.
    change (lit "\n   Dependencies:") with (nl ++ "   Dependencies:").
    rewrite (append_assoc nl).
    generalize (out ++ nl ++ "   Dependencies:" ++ dependency_lines views); intros o.
    subst body; cbv beta.
    destruct Hbad as [d Ha|d x Ha Hx|d oa name Ha Hc|d oa name Ha Hc].
    + rewrite (getitem_missing _ _ Ha); run. reflexivity.
    + rewrite (getitem_field (PDict d) "activity" _ Ha); run.
      rewrite Hx; run. reflexivity.
    + rewrite (getitem_field (PDict d) "activity" _ Ha); run.
      cbn [replace_spaces]; run.
      rewrite (getitem_missing _ _ Hc); run. reflexivity.
    + rewrite (getitem_field (PDict d) "activity" _ Ha); run.
      cbn [replace_spaces]; run.
      rewrite (getitem_field (PDict d) "dependencyConditions" _ Hc); run.
      reflexivity.
Qed.

Lemma read_activity_dependencies_stops_witness :
  read_activity_dependencies unconditional_activity ""
  = ("" ++ nl ++ "   Dependencies:" ++ dependency_lines [("A", "Succeeded")], Raise IndexError).
Proof.
  apply (read_activity_dependencies_stops unconditional_activity
           [ PDict [ ("activity", PStr Runtime "A");
                     ("dependencyConditions", PList [PStr Runtime "Succeeded"]) ] ]
           [ PDict [ ("activity", PStr Runtime "C");
                     ("dependencyConditions", PList [PStr Runtime "Failed"]) ] ]
           (PDict [ ("activity", PStr Runtime "B"); ("dependencyConditions", PList []) ])).
  - reflexivity.
  - repeat constructor.
    apply (dependency_intro _ Runtime "A" Runtime "Succeeded" []); reflexivity.
  - apply (dependency_empty_conditions _ Runtime "B"); reflexivity.
Defined.

(** X6: the anchor of a dependency has no space, is as long as the name, and is
    the name itself when the name has no space. *)
Theorem anchor_without_spaces (o : origin) (name : string) :
  exists anchor,
    replace_spaces (PStr o name) = Ok anchor /\
    string_mem " " anchor = false /\
    String.length anchor = String.length name /\
    (string_mem " " name = false -> anchor = name).
Proof.
  exists (replace " " "-" name). split; [reflexivity|].
  induction name as [|c name (IH1 & IH2 & IH3)]; [repeat split|].
  cbn [replace string_mem String.length].
  destruct (Ascii.eqb_spec c " ") as [->|Hc].
  - repeat split.
    + exact IH1.
    + now rewrite IH2.
    + discriminate.
  - apply Ascii.eqb_neq in Hc. rewrite Hc. cbn [orb]. repeat split.
    + exact IH1.
    + now rewrite IH2.
    + intros H. now rewrite (IH3 H).
Qed.

(** ** Required keys *)

(** X7: an activity that is not an object, or has no name or no type, makes
    the Activity Writer raise before it writes: no part of the bullet
    reaches the file. *)
Theorem read_activity_bullet_or_nothing (act : pyobj) (out : string) :
  field act "name" = None \/ field act "type" = None ->
  exists e, read_activity act out = (out, Raise e).
Proof.
  intros H. unfold read_activity.
  destruct act as [| b | z | r | o s | l | d]; try (eexists; reflexivity).
  cbn [field] in H.
  destruct (assoc "name" d) as [name|] eqn:En.
  - destruct H as [H|H]; [discriminate|].
    rewrite (getitem_field (PDict d) "name" _ En); run.
    rewrite (getitem_missing _ _ H); run. eauto.
  - rewrite (getitem_missing _ _ En); run. eauto.
Qed.

Lemma read_activity_bullet_or_nothing_witness :
  exists e, read_activity untyped_activity "# Pipelines" = ("# Pipelines", Raise e).
Proof.
  apply (read_activity_bullet_or_nothing untyped_activity "# Pipelines").
  right; reflexivity.
Defined.

(** X8: what a document without a required key leaves in the file: nothing when
    [name] is missing; the heading of the pipeline when [properties] is
    missing; the whole header, with the Steps heading, when [activities] is
    missing.  Each time the rendering raises the [KeyError] of that key. *)
Theorem write_pipeline_required_keys (d : list (string * pyobj)) (out : string) :
  (assoc "name" d = None ->
   write_pipeline (PDict d) out = (out, Raise (KeyError "name"))) /\
  (forall name,
     assoc "name" d = Some name ->
     assoc "properties" d = None ->
     write_pipeline (PDict d) out
     = (out ++ nl ++ nl ++ " ## " ++ py_format name ++ " " ++ nl,
        Raise (KeyError "properties"))) /\
  (forall name properties,
     assoc "name" d = Some name ->
     assoc "properties" d = Some (PDict properties) ->
     assoc "activities" properties = None ->
     write_pipeline (PDict d) out
     = (out ++ header_text (py_format name)
                           (option_map py_format (assoc "description" properties)),
        Raise (KeyError "activities"))).
Proof.
  split; [|split].
  - intros Hn. unfold write_pipeline.
    rewrite (getitem_missing _ _ Hn); run. reflexivity.
  - intros name Hn Hp. unfold write_pipeline.
    rewrite (getitem_field (PDict d) "name" _ Hn); run.
    rewrite (getitem_missing _ _ Hp); run.
    reflexivity.
  - intros name properties Hn Hp Ha. unfold write_pipeline.
    rewrite (getitem_field (PDict d) "name" _ Hn); run.
    rewrite (getitem_field (PDict d) "properties" _ Hp); run.
    destruct (assoc "description" properties) as [x|] eqn:E.
    + rewrite (contains_present _ _ _ E); run.
      rewrite (getitem_field (PDict properties) "description" _ E); run.
      rewrite (getitem_missing _ _ Ha); run.
      f_equal. unfold header_text, pipeline_description_text; cbn [option_map optional].
      text_norm. reflexivity.
    + rewrite (contains_absent _ _ E); run.
      rewrite (getitem_missing _ _ Ha); run.
      f_equal. unfold header_text; cbn [option_map optional].
      text_norm. reflexivity.
Qed.

Lemma write_pipeline_required_keys_witness :
  write_pipeline headless_pipeline ""
  = ("" ++ header_text "Empty" (Some "nothing yet"), Raise (KeyError "activities")) /\
  write_pipeline (PDict [("name", PStr Runtime "Bare")]) ""
  = ("" ++ nl ++ nl ++ " ## " ++ "Bare" ++ " " ++ nl, Raise (KeyError "properties")) /\
  write_pipeline (PDict []) "" = ("", Raise (KeyError "name")).
Proof.
  split; [|split].
  - exact (proj2 (proj2 (write_pipeline_required_keys
                           [ ("name", PStr Runtime "Empty");
                             ("properties", PDict [("description", PStr Runtime "nothing yet")]) ]
                           ""))
                 (PStr Runtime "Empty") [("description", PStr Runtime "nothing yet")]
                 eq_refl eq_refl eq_refl).
  - exact (proj1 (proj2 (write_pipeline_required_keys [("name", PStr Runtime "Bare")] ""))
                 (PStr Runtime "Bare") eq_refl eq_refl).
  - exact (proj1 (write_pipeline_required_keys [] "") eq_refl).
Defined.

(** X9: the rendering stops at the first activity that raises: the file holds
    the header, the text of the activities before it and what that activity
    wrote before its exception; the activities after it are not rendered. *)
Theorem write_pipeline_stops (doc name : pyobj) (properties : list (string * pyobj))
    (pre post : list pyobj) (act : pyobj) (views : list activity_view)
    (out out' : string) (e : exn) :
  field doc "name" = Some name ->
  field doc "properties" = Some (PDict properties) ->
  assoc "activities" properties = Some (PList (pre ++ act :: post)) ->
  Forall2 activity_of pre views ->
  read_activity act
    (out ++ header_text (py_format name)
                        (option_map py_format (assoc "description" properties))
         ++ texts (map activity_text views))
  = (out', Raise e) ->
  write_pipeline doc out = (out', Raise e).
Proof.
  intros Hn Hp Ha Hpre Hact.
  rewrite (write_pipeline_header doc name properties _ out Hn Hp Ha).
  apply (for_each_stops read_activity pre post act _ _ out' e
           (read_activities_of pre views Hpre _)).
  now rewrite append_assoc.
Qed.

Lemma blob_activity_of : activity_of blob_activity blob_activity_view.
Proof.
  apply (activity_intro _ Runtime "Copy Blob" Runtime "Copy" None
           [("source", PDict [("type", PStr Runtime "BlobSource");
                              ("sqlReaderQuery", PStr Runtime "SELECT 1")])]
           None [] []); try reflexivity.
  - apply description_absent; reflexivity.
  - apply (query_unsupported _
             [("type", PStr Runtime "BlobSource"); ("sqlReaderQuery", PStr Runtime "SELECT 1")]
             Runtime "BlobSource"); try reflexivity; discriminate.
  - constructor.
Qed.

Lemma write_pipeline_stops_witness :
  write_pipeline broken_pipeline ""
  = (header_text "Broken" None ++ bullet "Copy Blob" "Copy" ++ bullet "Copy Table" "Copy",
     Raise (KeyError "oracleReaderQuery")).
Proof.
  apply (write_pipeline_stops broken_pipeline (PStr Runtime "Broken")
           [("activities", PList [blob_activity; table_activity; blob_activity])]
           [blob_activity] [blob_activity] table_activity [blob_activity_view] "");
    try reflexivity.
  constructor; [exact blob_activity_of|constructor].
Defined.

(** ** The files *)

Lemma read_pipeline_loaded (json_load : string -> result pyobj)
    (append_error : string -> option exn)
    (pipeline_file_name markdown_file_name : string) (fs : filesystem)
    (text : string) (doc : pyobj) :
  append_error markdown_file_name = None ->
  fs pipeline_file_name = Some text ->
  json_load text = Ok doc ->
  read_pipeline json_load append_error pipeline_file_name markdown_file_name fs
  = (set_file markdown_file_name (content markdown_file_name fs ++ rendered doc)
       (created markdown_file_name fs),
     outcome doc).
Proof.
  intros Hopen Hfile Hload. unfold read_pipeline, open_append. rewrite Hopen.
  rewrite (created_existing markdown_file_name _ _ fs Hfile), Hload.
  rewrite (framed_write_pipeline doc (content markdown_file_name _)).
  now rewrite created_same.
Qed.

Lemma read_pipeline_unopened (json_load : string -> result pyobj)
    (append_error : string -> option exn)
    (pipeline_file_name markdown_file_name : string) (fs : filesystem) (e : exn) :
  append_error markdown_file_name = Some e ->
  read_pipeline json_load append_error pipeline_file_name markdown_file_name fs
  = (fs, Raise e).
Proof.
  intros Hopen. unfold read_pipeline, open_append. now rewrite Hopen.
Qed.

Lemma set_file_same (name text : string) (fs : filesystem) :
  set_file name text fs name = Some text.
Proof. unfold set_file. now rewrite String.eqb_refl. Qed.

Lemma set_file_other (name text p : string) (fs : filesystem) :
  p <> name -> set_file name text fs p = fs p.
Proof.
  intros Hp. unfold set_file. now rewrite (proj2 (String.eqb_neq p name) Hp).
Qed.

(** X10: when the Markdown file can be opened and the pipeline file is
    missing, [read_pipeline] raises [FileNotFoundError]; the Markdown file,
    opened for append before, exists afterwards with the text it had (empty
    when it was missing too), and no other file has changed.  When the
    Markdown file cannot be opened, the exception of [open] is raised and no
    file is created or changed. *)
Theorem read_pipeline_missing_file (json_load : string -> result pyobj)
    (append_error : string -> option exn)
    (pipeline_file_name markdown_file_name : string) (fs : filesystem) :
  fs pipeline_file_name = None ->
  pipeline_file_name <> markdown_file_name ->
  (append_error markdown_file_name = None ->
   snd (read_pipeline json_load append_error pipeline_file_name markdown_file_name fs)
   = Raise FileNotFoundError /\
   fst (read_pipeline json_load append_error pipeline_file_name markdown_file_name fs)
     markdown_file_name
   = Some (content markdown_file_name fs) /\
   forall p, p <> markdown_file_name ->
     fst (read_pipeline json_load append_error pipeline_file_name markdown_file_name fs) p
     = fs p) /\
  (forall e,
     append_error markdown_file_name = Some e ->
     read_pipeline json_load append_error pipeline_file_name markdown_file_name fs
     = (fs, Raise e)).
Proof.
  intros Hfile Hne. split.
  - intros Hopen. unfold read_pipeline, open_append. rewrite Hopen.
    rewrite (created_other markdown_file_name pipeline_file_name fs Hne), Hfile.
    cbn [fst snd]. split; [reflexivity|split].
    + unfold created, content. now rewrite String.eqb_refl.
    + intros p Hp. now apply created_other.
  - intros e Hopen. now apply read_pipeline_unopened.
Qed.

Lemma read_pipeline_missing_file_witness :
  (snd (read_pipeline sample_load sample_append_error
          "pipeline/none.json" "new.md" sample_files)
   = Raise FileNotFoundError /\
   fst (read_pipeline sample_load sample_append_error
          "pipeline/none.json" "new.md" sample_files) "new.md"
   = Some "") /\
  read_pipeline sample_load sample_append_error
    "pipeline/none.json" "nodir/new.md" sample_files
  = (sample_files, Raise FileNotFoundError).
Proof.
  split.
  - destruct (read_pipeline_missing_file sample_load sample_append_error
                "pipeline/none.json" "new.md" sample_files eq_refl) as [Hopened _].
    + discriminate.
    + destruct (Hopened eq_refl) as (Hr & Hm & _). split; [exact Hr|exact Hm].
  - destruct (read_pipeline_missing_file sample_load sample_append_error
                "pipeline/none.json" "nodir/new.md" sample_files eq_refl) as [_ Hblocked].
    + discriminate.
    + exact (Hblocked FileNotFoundError eq_refl).
Defined.

(** X11: whatever the files hold and however the call ends, [read_pipeline]
    leaves every file but the Markdown file as it was; a Markdown file that
    could be opened holds afterwards its former text followed by what was
    appended, so that nothing of it is removed or rewritten, and when it
    could not be opened no file has changed at all. *)
Theorem read_pipeline_only_appends (json_load : string -> result pyobj)
    (append_error : string -> option exn)
    (pipeline_file_name markdown_file_name : string) (fs : filesystem) :
  (forall p, p <> markdown_file_name ->
     fst (read_pipeline json_load append_error pipeline_file_name markdown_file_name fs) p
     = fs p) /\
  match append_error markdown_file_name with
  | None =>
      exists text,
        fst (read_pipeline json_load append_error pipeline_file_name markdown_file_name fs)
          markdown_file_name
        = Some (content markdown_file_name fs ++ text)
  | Some e =>
      read_pipeline json_load append_error pipeline_file_name markdown_file_name fs
      = (fs, Raise e)
  end.
Proof.
  unfold read_pipeline, open_append.
  destruct (append_error markdown_file_name) as [e0|]; [split; reflexivity|].
  destruct (created markdown_file_name fs pipeline_file_name) as [text|];
    [destruct (json_load text) as [doc|e]|]; cbn [fst snd].
  - rewrite (framed_write_pipeline doc (content markdown_file_name _)).
    rewrite created_same. cbn [fst]. split.
    + intros p Hp. rewrite (set_file_other _ _ _ _ Hp). now apply created_other.
    + exists (rendered doc). apply set_file_same.
  - split; [intros p Hp; now apply created_other|].
    exists "". unfold created, content.
    now rewrite String.eqb_refl, append_nil_r.
  - split; [intros p Hp; now apply created_other|].
    exists "". unfold created, content.
    now rewrite String.eqb_refl, append_nil_r.
Qed.

(** X12: when the Markdown file can be opened and the pipeline file decodes
    to a document of the shape the module expects, with plain string
    queries, [read_pipeline] returns, and the Markdown file, created when it
    was missing, holds its former text followed by the text of the
    pipeline. *)
Theorem read_pipeline_renders (json_load : string -> result pyobj)
    (append_error : string -> option exn)
    (pipeline_file_name markdown_file_name : string) (fs : filesystem)
    (text : string) (doc : pyobj) (p : pipeline_view) :
  append_error markdown_file_name = None ->
  fs pipeline_file_name = Some text ->
  json_load text = Ok doc ->
  plain_pipeline_of doc p ->
  snd (read_pipeline json_load append_error pipeline_file_name markdown_file_name fs)
  = Ok tt /\
  fst (read_pipeline json_load append_error pipeline_file_name markdown_file_name fs)
    markdown_file_name
  = Some (content markdown_file_name fs ++ pipeline_text p).
Proof.
  intros Hopen Hfile Hload Hdoc.
  rewrite (read_pipeline_loaded json_load append_error _ markdown_file_name fs text doc
             Hopen Hfile Hload).
  unfold outcome, rendered.
  rewrite (write_pipeline_view doc p "" (plain_pipeline_view doc p Hdoc)). cbn [fst snd].
  split; [reflexivity|apply set_file_same].
Qed.

Lemma read_pipeline_renders_witness :
  snd (read_pipeline sample_load sample_append_error
         "pipeline/load_sales.json" "new.md" sample_files) = Ok tt /\
  fst (read_pipeline sample_load sample_append_error
         "pipeline/load_sales.json" "new.md" sample_files) "new.md"
  = Some ("" ++ pipeline_text load_sales_view).
Proof.
  apply (read_pipeline_renders sample_load sample_append_error
           "pipeline/load_sales.json" "new.md" sample_files
           load_sales_json load_sales load_sales_view); try reflexivity.
  exact load_sales_plain.
Defined.

(** X13: two calls on the same Markdown file, the first of which returns,
    append in the order of the calls: after the second, the file holds its
    former text, then what the first document rendered, then what the
    second rendered. *)
Theorem read_pipeline_twice (json_load : string -> result pyobj)
    (append_error : string -> option exn)
    (first_file second_file markdown_file_name : string) (fs : filesystem)
    (text1 text2 : string) (doc1 doc2 : pyobj) :
  append_error markdown_file_name = None ->
  fs first_file = Some text1 ->
  fs second_file = Some text2 ->
  second_file <> markdown_file_name ->
  json_load text1 = Ok doc1 ->
  json_load text2 = Ok doc2 ->
  outcome doc1 = Ok tt ->
  let fs1 :=
    fst (read_pipeline json_load append_error first_file markdown_file_name fs) in
  snd (read_pipeline json_load append_error first_file markdown_file_name fs) = Ok tt /\
  snd (read_pipeline json_load append_error second_file markdown_file_name fs1)
  = outcome doc2 /\
  fst (read_pipeline json_load append_error second_file markdown_file_name fs1)
    markdown_file_name
  = Some (content markdown_file_name fs ++ rendered doc1 ++ rendered doc2).
Proof.
  intros Hopen H1 H2 Hne L1 L2 Hok fs1.
  assert (Hrun1 := read_pipeline_loaded json_load append_error first_file
                     markdown_file_name fs text1 doc1 Hopen H1 L1).
  assert (Hfs1 : fs1 = set_file markdown_file_name
                         (content markdown_file_name fs ++ rendered doc1)
                         (created markdown_file_name fs)).
  { unfold fs1. now rewrite Hrun1. }
  assert (H2' : fs1 second_file = Some text2).
  { rewrite Hfs1, (set_file_other _ _ _ _ Hne).
    now rewrite (created_other _ _ _ Hne). }
  rewrite Hrun1.
  rewrite (read_pipeline_loaded json_load append_error _ markdown_file_name fs1 text2 doc2
             Hopen H2' L2).
  cbn [fst snd]. split; [exact Hok|split; [reflexivity|]].
  rewrite set_file_same. unfold content at 1.
  rewrite Hfs1, set_file_same. now rewrite append_assoc.
Qed.

Lemma read_pipeline_twice_witness :
  fst (read_pipeline sample_load sample_append_error
         "pipeline/load_sales.json" "factory.md"
         (fst (read_pipeline sample_load sample_append_error
                 "pipeline/load_sales.json" "factory.md" sample_files))) "factory.md"
  = Some ("# Pipelines" ++ rendered load_sales ++ rendered load_sales).
Proof.
  refine (proj2 (proj2 (read_pipeline_twice sample_load sample_append_error
                          "pipeline/load_sales.json" "pipeline/load_sales.json"
                          "factory.md" sample_files
                          load_sales_json load_sales_json load_sales load_sales
                          eq_refl eq_refl eq_refl _ eq_refl eq_refl eq_refl))).
  discriminate.
Defined.
